(** * subway-arrival: a shallow embedding of [subway_app.py]

    The dashboard fetches real-time arrivals for one station from the Seoul
    open-data API, normalises the noisy text fields of every arrival record
    and groups the records by direction.  This file embeds the pure part of
    the module (line-name table, text classifier, record normaliser,
    response classification of the fetcher, direction grouping) and proves
    the properties listed in the specification against it. *)

From Stdlib Require Import List ZArith NArith Bool Lia.
From Stdlib Require Import Strings.String Strings.Ascii Strings.Byte.
From Stdlib Require Import Init.Decimal Numbers.DecimalPos.
Import ListNotations.

Set Implicit Arguments.

(** ** Python strings

    A Python [str] is a sequence of Unicode code points: [len], slicing,
    the [in] operator and the [re] module all count code points, not bytes.
    A string is therefore a list of code points; literals are written in
    UTF-8 and decoded once. *)

Module PyStr.

Definition codepoint := N.
Definition pystr := list codepoint.

(** Decoder for the UTF-8 bytes of a literal (1 to 4 byte sequences). *)
Definition cont (b : N) : N := N.land b 63.

Fixpoint utf8_decode (fuel : nat) (bs : list N) : pystr :=
  match fuel with
  | O => []
  | S fuel' =>
    match bs with
    | [] => []
    | b0 :: r0 =>
      if (b0 <? 128)%N then b0 :: utf8_decode fuel' r0
      else if (b0 <? 224)%N then
        match r0 with
        | b1 :: r1 =>
          (N.land b0 31 * 64 + cont b1)%N :: utf8_decode fuel' r1
        | _ => []
        end
      else if (b0 <? 240)%N then
        match r0 with
        | b1 :: b2 :: r2 =>
          (N.land b0 15 * 4096 + cont b1 * 64 + cont b2)%N
            :: utf8_decode fuel' r2
        | _ => []
        end
      else
        match r0 with
        | b1 :: b2 :: b3 :: r3 =>
          (N.land b0 7 * 262144 + cont b1 * 4096 + cont b2 * 64 + cont b3)%N
            :: utf8_decode fuel' r3
        | _ => []
        end
    end
  end.

Definition utf8 (s : string) : pystr :=
  let bs := map (fun b => N_of_ascii (ascii_of_byte b)) (list_byte_of_string s) in
  utf8_decode (List.length bs) bs.

(** [a == b] *)
Fixpoint str_eqb (a b : pystr) : bool :=
  match a, b with
  | [], [] => true
  | x :: a', y :: b' => (x =? y)%N && str_eqb a' b'
  | _, _ => false
  end.

(** [not s] for a string: the empty string is falsy. *)
Definition is_empty (s : pystr) : bool :=
  match s with [] => true | _ => false end.

(** [s.startswith(w)] *)
Fixpoint starts_with (w s : pystr) : bool :=
  match w, s with
  | [], _ => true
  | _ :: _, [] => false
  | a :: w', b :: s' => (a =? b)%N && starts_with w' s'
  end.

(** [w in s]: [w] occurs in [s] as a contiguous run of code points. *)
Fixpoint contains (w s : pystr) : bool :=
  starts_with w s ||
  match s with
  | [] => false
  | _ :: s' => contains w s'
  end.

(** [any(word in s for word in words)] *)
Definition any_in (words : list pystr) (s : pystr) : bool :=
  existsb (fun w => contains w s) words.

(** [str.isspace] of one code point: the code points CPython's
    [_PyUnicode_IsWhitespace] accepts. *)
Definition is_space (c : codepoint) : bool :=
  ((9 <=? c) && (c <=? 13) || (28 <=? c) && (c <=? 32)
   || (c =? 133) || (c =? 160) || (c =? 5760)
   || (8192 <=? c) && (c <=? 8202)
   || (c =? 8232) || (c =? 8233) || (c =? 8239) || (c =? 8287)
   || (c =? 12288))%N.

Fixpoint lstrip (s : pystr) : pystr :=
  match s with
  | c :: s' => if is_space c then lstrip s' else s
  | [] => []
  end.

(** [s.strip()] *)
Definition strip (s : pystr) : pystr :=
  List.rev (lstrip (List.rev (lstrip s))).

(** Decimal digits of a natural number, as [str(n)] prints them. *)
Fixpoint uint_chars (d : Decimal.uint) : pystr :=
  match d with
  | Nil => []
  | D0 d' => 48%N :: uint_chars d'
  | D1 d' => 49%N :: uint_chars d'
  | D2 d' => 50%N :: uint_chars d'
  | D3 d' => 51%N :: uint_chars d'
  | D4 d' => 52%N :: uint_chars d'
  | D5 d' => 53%N :: uint_chars d'
  | D6 d' => 54%N :: uint_chars d'
  | D7 d' => 55%N :: uint_chars d'
  | D8 d' => 56%N :: uint_chars d'
  | D9 d' => 57%N :: uint_chars d'
  end.

(** [str(z)] for an [int]. *)
Definition str_of_int (z : Z) : pystr :=
  match z with
  | Z0 => [48%N]
  | Zpos p => uint_chars (Pos.to_uint p)
  | Zneg p => 45%N :: uint_chars (Pos.to_uint p)
  end.

(** An ASCII decimal digit, what [str] of an [int] is made of. *)
Definition is_digit (c : codepoint) : bool := ((48 <=? c) && (c <=? 57))%N.

(** A Hangul syllable, the regex class [[가-힣]]. *)
Definition is_hangul (c : codepoint) : bool :=
  ((44032 <=? c) && (c <=? 55203))%N.

(** The longest leading run of Hangul syllables of [s], and what follows. *)
Fixpoint hangul_run (s : pystr) : pystr * pystr :=
  match s with
  | c :: s' =>
    if is_hangul c then let (run, rest) := hangul_run s' in (c :: run, rest)
    else ([], s)
  | [] => ([], [])
  end.

(** [$] without [re.MULTILINE]: the end of the string, or just before a
    newline that ends the string. *)
Definition at_dollar (s : pystr) : bool :=
  match s with
  | [] => true
  | [c] => (c =? 10)%N
  | _ => false
  end.

(** [re.match(r'^[가-힣]{2,4}$', t)] is not [None].  The class is greedy and
    the pattern is anchored, so it matches exactly when the leading Hangul
    run has 2 to 4 syllables and [$] holds right after it. *)
Definition re_match_station_name (t : pystr) : bool :=
  let (run, rest) := hangul_run t in
  (2 <=? List.length run)%nat && (List.length run <=? 4)%nat && at_dollar rest.

(** [re.search(r'\(([가-힣]+)\)', s)]: group 1 of the leftmost match, scanning
    the opening parentheses from the left. *)
Fixpoint re_search_paren (s : pystr) : option pystr :=
  match s with
  | [] => None
  | c :: s' =>
    if (c =? 40)%N then
      let (run, rest) := hangul_run s' in
      if negb (is_empty run) && starts_with [41%N] rest then Some run
      else re_search_paren s'
    else re_search_paren s'
  end.

End PyStr.
Import PyStr.

(** ** Python values and exceptions *)

(** What [response.json()] can hold.  The feed sends whole numbers only, so
    JSON numbers are Python [int]s here. *)
#[warnings="-register-all"]
Inductive json : Type :=
| JNull
| JBool (b : bool)
| JInt (z : Z)
| JStr (s : pystr)
| JArr (l : list json)
| JObj (d : list (pystr * json)).

Definition dict := list (pystr * json).

Inductive exn := AttributeError | TypeError | KeyError.

Inductive result (A : Type) : Type :=
| Ok (a : A)
| Raise (e : exn).
Arguments Ok {A} a.
Arguments Raise {A} e.

Definition bind {A B : Type} (r : result A) (k : A -> result B) : result B :=
  match r with
  | Ok a => k a
  | Raise e => Raise e
  end.

Notation "x <- r ;; k" := (bind r (fun x => k))
  (at level 61, r at next level, right associativity).

(** The two builtins whose full behaviour depends on the interpreter's
    Unicode tables and [repr] rules are an interface: [int(s)] of a [str]
    ([None] stands for [ValueError]) and [str(v)] of a list or a dict. *)
Class Builtins := {
  int_of_str : pystr -> option Z;
  str_of_container : json -> pystr
}.

Module Py.

(** [d.get(k)] on the entries of a dict *)
Fixpoint lookup {V : Type} (d : list (pystr * V)) (k : pystr) : option V :=
  match d with
  | [] => None
  | (k', v) :: d' => if str_eqb k' k then Some v else lookup d' k
  end.

(** [d.get(k, default)] *)
Definition get {V : Type} (d : list (pystr * V)) (k : pystr) (default : V) : V :=
  match lookup d k with
  | Some v => v
  | None => default
  end.

(** [bool(v)] *)
Definition truthy (v : json) : bool :=
  match v with
  | JNull => false
  | JBool b => b
  | JInt z => negb (z =? 0)%Z
  | JStr s => negb (is_empty s)
  | JArr l => match l with [] => false | _ => true end
  | JObj d => match d with [] => false | _ => true end
  end.

(** [v == s] for a [str] literal [s] *)
Definition eq_str (v : json) (s : pystr) : bool :=
  match v with
  | JStr s' => str_eqb s' s
  | _ => false
  end.

(** [v == 1]; [True == 1] holds in Python. *)
Definition eq_one (v : json) : bool :=
  match v with
  | JInt z => (z =? 1)%Z
  | JBool b => b
  | _ => false
  end.

(** [w in v] for a [str] literal [w]: substring of a [str], element of a
    list, key of a dict; [TypeError] on the rest. *)
Definition contains_str (w : pystr) (v : json) : result bool :=
  match v with
  | JStr s => Ok (contains w s)
  | JArr l => Ok (existsb (fun x => eq_str x w) l)
  | JObj d => Ok (match lookup d w with Some _ => true | None => false end)
  | _ => Raise TypeError
  end.

(** [v[k]] for a [str] key [k] *)
Definition getitem (v : json) (k : pystr) : result json :=
  match v with
  | JObj d => match lookup d k with Some x => Ok x | None => Raise KeyError end
  | _ => Raise TypeError
  end.

(** [v.get(k, default)]: only a dict has the method. *)
Definition get_method (v : json) (k : pystr) (default : json) : result json :=
  match v with
  | JObj d => Ok (get d k default)
  | _ => Raise AttributeError
  end.

(** [len(v)] *)
Definition len (v : json) : result Z :=
  match v with
  | JStr s => Ok (Z.of_nat (List.length s))
  | JArr l => Ok (Z.of_nat (List.length l))
  | JObj d => Ok (Z.of_nat (List.length d))
  | _ => Raise TypeError
  end.

(** [v.strip()]: only a [str] has the method. *)
Definition strip_method (v : json) : result pystr :=
  match v with
  | JStr s => Ok (strip s)
  | _ => Raise AttributeError
  end.

(** The items [for x in v] visits. *)
Definition iter (v : json) : result (list json) :=
  match v with
  | JArr l => Ok l
  | JStr s => Ok (map (fun c => JStr [c]) s)
  | JObj d => Ok (map (fun kv => JStr (fst kv)) d)
  | _ => Raise TypeError
  end.

Section WithBuiltins.
Context {builtins : Builtins}.

(** [int(v)]; [None] stands for [ValueError] or [TypeError]. *)
Definition int (v : json) : option Z :=
  match v with
  | JStr s => int_of_str s
  | JInt z => Some z
  | JBool b => Some (if b then 1 else 0)%Z
  | _ => None
  end.

(** [str(v)] *)
Definition str (v : json) : pystr :=
  match v with
  | JNull => utf8 "None"
  | JBool b => if b then utf8 "True" else utf8 "False"
  | JInt z => str_of_int z
  | JStr s => s
  | _ => str_of_container v
  end.

End WithBuiltins.
End Py.

(** ** The module [subway_app]

    Names follow the source.  String constants are the source's literals. *)

Module Subway.
Import Py.

Definition s_unknown : pystr := Eval vm_compute in utf8 "알 수 없음".
Definition s_arrived : pystr := Eval vm_compute in utf8 "도착".
Definition s_entering : pystr := Eval vm_compute in utf8 "진입중".
Definition s_soon : pystr := Eval vm_compute in utf8 "곧 도착".
Definition s_line_suffix : pystr := Eval vm_compute in utf8 "호선".
Definition s_min : pystr := Eval vm_compute in utf8 "분".
Definition s_sec : pystr := Eval vm_compute in utf8 "초".
Definition s_after : pystr := Eval vm_compute in utf8 "후".
Definition s_prev_station : pystr := Eval vm_compute in utf8 "전역".
Definition s_min_sp : pystr := Eval vm_compute in utf8 "분 ".
Definition s_sec_after : pystr := Eval vm_compute in utf8 "초 후".
Definition s_min_after : pystr := Eval vm_compute in utf8 "분 후".
Definition w_receipt : pystr := Eval vm_compute in utf8 "접수".
Definition w_global : pystr := Eval vm_compute in utf8 "글로벌".
Definition w_import : pystr := Eval vm_compute in utf8 "수입".
Definition w_convert : pystr := Eval vm_compute in utf8 "전환".
Definition w_global_import : pystr := Eval vm_compute in utf8 "글로벌 수입".
Definition s_entering_tok : pystr := Eval vm_compute in utf8 "진입".
Definition s_zero : pystr := Eval vm_compute in utf8 "0".
Definition s_one : pystr := Eval vm_compute in utf8 "1".

(** Field names of a raw arrival record. *)
Definition k_barvlDt : pystr := Eval vm_compute in utf8 "barvlDt".
Definition k_arvlMsg2 : pystr := Eval vm_compute in utf8 "arvlMsg2".
Definition k_arvlMsg3 : pystr := Eval vm_compute in utf8 "arvlMsg3".
Definition k_arvlCd : pystr := Eval vm_compute in utf8 "arvlCd".
Definition k_lstcarAt : pystr := Eval vm_compute in utf8 "lstcarAt".
Definition k_subwayId : pystr := Eval vm_compute in utf8 "subwayId".
Definition k_bstatnNm : pystr := Eval vm_compute in utf8 "bstatnNm".
Definition k_updnLine : pystr := Eval vm_compute in utf8 "updnLine".

(** Keys of the response envelope. *)
Definition k_errorMessage : pystr := Eval vm_compute in utf8 "errorMessage".
Definition k_code : pystr := Eval vm_compute in utf8 "code".
Definition k_message : pystr := Eval vm_compute in utf8 "message".
Definition k_realtimeArrivalList : pystr :=
  Eval vm_compute in utf8 "realtimeArrivalList".
Definition k_realtimeStationArrival : pystr :=
  Eval vm_compute in utf8 "realtimeStationArrival".
Definition s_info_000 : pystr := Eval vm_compute in utf8 "INFO-000".
Definition s_unknown_error : pystr := Eval vm_compute in utf8 "알 수 없는 오류".

(** Direction tokens of the grouping loop. *)
Definition t_up : pystr := Eval vm_compute in utf8 "상행".
Definition t_inner : pystr := Eval vm_compute in utf8 "내선".
Definition t_sang : pystr := Eval vm_compute in utf8 "상".
Definition t_down : pystr := Eval vm_compute in utf8 "하행".
Definition t_outer : pystr := Eval vm_compute in utf8 "외선".
Definition t_ha : pystr := Eval vm_compute in utf8 "하".

(** *** [get_subway_line_name] *)

Definition subway_line_map : list (pystr * pystr) := Eval vm_compute in
  map (fun kv => (utf8 (fst kv), utf8 (snd kv)))
    [ ("1001", "1호선"); ("1002", "2호선"); ("1003", "3호선");
      ("1004", "4호선"); ("1005", "5호선"); ("1006", "6호선");
      ("1007", "7호선"); ("1008", "8호선"); ("1009", "9호선");
      ("1061", "중앙선"); ("1063", "경의중앙선"); ("1065", "공항철도");
      ("1067", "경춘선"); ("1071", "수인분당선"); ("1075", "분당선");
      ("1077", "분당선"); ("1081", "신림선"); ("1092", "신분당선");
      ("1093", "용인경전철"); ("1094", "의정부경전철");
      ("1095", "우이신설선"); ("1096", "서해선");
      ("1097", "김포골드라인"); ("1099", "수인선") ]%string.

Section WithBuiltins.
Context {builtins : Builtins}.

Definition get_subway_line_name (subway_id : json) : pystr :=
  let subway_id_str := if truthy subway_id then str subway_id else [] in
  get subway_line_map subway_id_str
    (if negb (is_empty subway_id_str) then subway_id_str ++ s_line_suffix
     else s_unknown).

End WithBuiltins.

(** *** [is_valid_station_text] *)

Definition invalid_words_classifier : list pystr :=
  [w_receipt; w_global; w_import; w_convert; w_global_import].

Definition valid_keywords : list pystr := Eval vm_compute in
  map utf8 ["분"; "초"; "후"; "도착"; "진입"; "전역"; "역"; "번째"]%string.

Definition is_valid_station_text (text : pystr) : bool :=
  if is_empty text || (List.length text =? 0)%nat then false
  else if any_in invalid_words_classifier text then false
  else if any_in valid_keywords text then true
  else if re_match_station_name (strip text) then true
  else false.

(** *** [parse_train_info] *)

Record train_info := {
  direction : json;
  status : pystr;
  time : pystr;
  current : pystr;
  subway_line : json;
  subway_line_name : pystr;
  updn_line : json;
  is_last_train : bool
}.

(** The denylist of the normaliser (four words). *)
Definition invalid_words : list pystr :=
  [w_receipt; w_global; w_import; w_convert].

(** The human time string computed from the seconds to arrival. *)
Definition time_str_of (barvl_seconds : Z) : pystr :=
  if (barvl_seconds >? 0)%Z then
    let minutes := (barvl_seconds / 60)%Z in
    let seconds := (barvl_seconds mod 60)%Z in
    if (minutes >? 0)%Z && (seconds >? 0)%Z then
      str_of_int minutes ++ s_min_sp ++ str_of_int seconds ++ s_sec_after
    else if (minutes >? 0)%Z then str_of_int minutes ++ s_min_after
    else if (seconds >? 0)%Z then str_of_int seconds ++ s_sec_after
    else s_soon
  else s_arrived.

(** The four-word test of the final filtering, written out with [or] in the
    source. *)
Definition has_garbage (s : pystr) : bool :=
  contains w_receipt s || contains w_global s
  || contains w_import s || contains w_convert s.

Section WithBuiltins.
Context {builtins : Builtins}.

(** [int(barvl_dt) if barvl_dt else 0], with 0 on [ValueError] and
    [TypeError].  For the values of [json] these are the only exceptions of
    [int]; a JSON number with a fraction or an exponent decodes to a float,
    which [json] leaves out, and [int] of an infinite float raises
    [OverflowError], which the [except] clause does not catch.  The
    theorems that say normalisation returns therefore take the seconds
    field to be a string or an [int]. *)
Definition barvl_seconds_of (barvl_dt : json) : Z :=
  if truthy barvl_dt then
    match int barvl_dt with
    | Some z => z
    | None => 0%Z
    end
  else 0%Z.

(** The last [else] of the status selection, where [arvlMsg2] is not
    usable: the time string, or the text for the arrival code.  Status and
    display time get the same value in each of its branches. *)
Definition fallback_text (barvl_seconds : Z) (time_str : pystr)
    (arvl_cd : json) : pystr :=
  if (barvl_seconds >? 0)%Z then time_str
  else if eq_str arvl_cd s_zero then s_arrived
  else if eq_str arvl_cd s_one then s_entering
  else s_arrived.

(** Status and display time, from the scrubbed [arvlMsg2]. *)
Definition status_and_time (is_valid_msg2 : bool) (arvl_msg2 : pystr)
    (barvl_seconds : Z) (time_str : pystr) (arvl_cd : json) : pystr * pystr :=
  if is_valid_msg2 && (contains s_min arvl_msg2 || contains s_sec arvl_msg2
                       || contains s_after arvl_msg2) then
    (arvl_msg2, arvl_msg2)
  else if is_valid_msg2 && (contains s_arrived arvl_msg2
                            || contains s_entering_tok arvl_msg2) then
    (arvl_msg2, if (barvl_seconds >? 0)%Z then time_str else s_arrived)
  else if is_valid_msg2 && contains s_prev_station arvl_msg2 then
    (arvl_msg2, if (barvl_seconds >? 0)%Z then time_str else s_arrived)
  else
    (fallback_text barvl_seconds time_str arvl_cd,
     fallback_text barvl_seconds time_str arvl_cd).

(** The current location, before the final filtering. *)
Definition location_of (is_valid_msg2 : bool) (arvl_msg2 arvl_msg3 : pystr)
    : pystr :=
  if is_valid_station_text arvl_msg3 then arvl_msg3
  else if is_valid_msg2
          && negb (contains s_min arvl_msg2 || contains s_sec arvl_msg2) then
    match re_search_paren arvl_msg2 with
    | Some group1 => group1
    | None =>
      if (List.length arvl_msg2 <=? 4)%nat && is_valid_station_text arvl_msg2
      then arvl_msg2 else []
    end
  else [].

Definition parse_record (train_data : dict) : result train_info :=
  let barvl_dt := get train_data k_barvlDt (JStr s_zero) in
  let barvl_seconds := barvl_seconds_of barvl_dt in
  let time_str := time_str_of barvl_seconds in
  arvl_msg2 <- strip_method (get train_data k_arvlMsg2 (JStr [])) ;;
  arvl_msg3 <- strip_method (get train_data k_arvlMsg3 (JStr [])) ;;
  let arvl_cd := get train_data k_arvlCd (JStr []) in
  let arvl_msg2 := if any_in invalid_words arvl_msg2 then [] else arvl_msg2 in
  let arvl_msg3 := if any_in invalid_words arvl_msg3 then [] else arvl_msg3 in
  let is_valid_msg2 :=
    if negb (is_empty arvl_msg2) then is_valid_station_text arvl_msg2
    else false in
  let chosen :=
    status_and_time is_valid_msg2 arvl_msg2 barvl_seconds time_str arvl_cd in
  let status := fst chosen in
  let time_display := snd chosen in
  let current_location := location_of is_valid_msg2 arvl_msg2 arvl_msg3 in
  let status :=
    if has_garbage status then
      if (barvl_seconds >? 0)%Z then time_str else s_arrived
    else status in
  let time_display :=
    if has_garbage time_display then
      if (barvl_seconds >? 0)%Z then time_str else s_arrived
    else time_display in
  let current_location :=
    if has_garbage current_location then [] else current_location in
  let lstcar_at := get train_data k_lstcarAt (JStr s_zero) in
  let is_last_train := eq_str lstcar_at s_one || eq_one lstcar_at in
  let subway_id := get train_data k_subwayId (JStr []) in
  let subway_line_name := get_subway_line_name subway_id in
  Ok {| direction := get train_data k_bstatnNm (JStr s_unknown);
        status := status;
        time := time_display;
        current :=
          if negb (is_empty current_location) then current_location
          else s_unknown;
        subway_line := subway_id;
        subway_line_name := subway_line_name;
        updn_line := get train_data k_updnLine (JStr []);
        is_last_train := is_last_train |}.

(** [parse_train_info(train_data)]: every access is [train_data.get], which
    only a dict has. *)
Definition parse_train_info (train_data : json) : result train_info :=
  match train_data with
  | JObj d => parse_record d
  | _ => Raise AttributeError
  end.

End WithBuiltins.

(** *** [fetch_subway_data]

    The request itself is the environment: the function is given what
    [requests.get], [raise_for_status] and [response.json] produced. *)

Inductive response :=
| RequestException (e : pystr)   (* raised inside the [try]; [e] is [str(e)] *)
| Json (data : json).            (* the decoded body *)

(** One constructor per [st.error] / [st.warning] call site of the module;
    the argument is the value interpolated into the message. *)
Inductive st_call :=
| error_api_key_missing
| error_api (error_msg : json)
| warning_unexpected_format (keys : option (list pystr))
| error_request (e : pystr)
| error_exception (e : exn)
| error_station_not_found
| warning_no_trains.

(** [arrival_list if arrival_list and len(arrival_list) > 0 else []] *)
Definition list_or_empty (arrival_list : json) : result json :=
  if truthy arrival_list then
    n <- len arrival_list ;;
    Ok (if (n >? 0)%Z then arrival_list else JArr [])
  else Ok (JArr []).

(** The embedded error object: [Some] is the early [return None]. *)
Definition check_error_message (data : json)
    : result (option (list st_call * option json)) :=
  has_error <- contains_str k_errorMessage data ;;
  if has_error then
    error_info <- getitem data k_errorMessage ;;
    code <- get_method error_info k_code (JStr []) ;;
    if negb (eq_str code s_info_000) then
      error_msg <- get_method error_info k_message (JStr s_unknown_error) ;;
      Ok (Some ([error_api error_msg], None))
    else Ok None
  else Ok None.

(** The three payload shapes and the warning for any other. *)
Definition select_payload (data : json) : result (list st_call * option json) :=
  has_current <- contains_str k_realtimeArrivalList data ;;
  if has_current then
    arrival_list <- getitem data k_realtimeArrivalList ;;
    r <- list_or_empty arrival_list ;;
    Ok ([], Some r)
  else
    has_legacy <- contains_str k_realtimeStationArrival data ;;
    if has_legacy then
      arrival_list <- getitem data k_realtimeStationArrival ;;
      r <- list_or_empty arrival_list ;;
      Ok ([], Some r)
    else
      match data with
      | JArr l =>
        Ok ([], Some (if (Z.of_nat (List.length l) >? 0)%Z then data
                      else JArr []))
      | JObj d => Ok ([warning_unexpected_format (Some (map fst d))], None)
      | _ => Ok ([warning_unexpected_format None], None)
      end.

(** The body of the [try] once the response is decoded. *)
Definition classify_response (data : json)
    : result (list st_call * option json) :=
  early <- check_error_message data ;;
  match early with
  | Some r => Ok r
  | None => select_payload data
  end.

(** The calls made on the page and the returned value ([None] of Python is
    [None] here). *)
Definition fetch_subway_data (API_KEY : pystr) (resp : response)
    : list st_call * option json :=
  if is_empty API_KEY then ([error_api_key_missing], None)
  else
    match resp with
    | RequestException e => ([error_request e], None)
    | Json data =>
      match classify_response data with
      | Ok r => r
      | Raise e => ([error_exception e], None)
      end
    end.

(** *** The main script: direction grouping and the page *)

Inductive group := Up | Down.

Definition up_check (updn : json) : result bool :=
  a <- contains_str t_up updn ;;
  if a then Ok true else
  b <- contains_str t_inner updn ;;
  if b then Ok true else
  contains_str t_sang updn.

Definition down_check (updn : json) : result bool :=
  a <- contains_str t_down updn ;;
  if a then Ok true else
  b <- contains_str t_outer updn ;;
  if b then Ok true else
  contains_str t_ha updn.

(** The [if] / [elif] / [else] of the loop body. *)
Definition direction_group (updn : json) : result group :=
  up <- up_check updn ;;
  if up then Ok Up
  else
    down <- down_check updn ;;
    if down then Ok Down
    else Ok Down.

(** The same chain with the two tests in the other order; the loop does not
    use it, it is what the order of the tests is compared against. *)
Definition direction_group_down_first (updn : json) : result group :=
  down <- down_check updn ;;
  if down then Ok Down
  else
    up <- up_check updn ;;
    if up then Ok Up
    else Ok Down.

Inductive page :=
| Tabs (downbound_trains upbound_trains : list train_info).

Section WithBuiltins.
Context {builtins : Builtins}.

(** [for train in data: ...], appending to the two lists. *)
Fixpoint group_trains (data : list json)
    (upbound_trains downbound_trains : list train_info)
    : result (list train_info * list train_info) :=
  match data with
  | [] => Ok (upbound_trains, downbound_trains)
  | train :: data' =>
    info <- parse_train_info train ;;
    g <- direction_group (updn_line info) ;;
    match g with
    | Up => group_trains data' (upbound_trains ++ [info]) downbound_trains
    | Down => group_trains data' upbound_trains (downbound_trains ++ [info])
    end
  end.

(** What the page shows for the value [fetch_subway_data] returned: the
    messages, and the two tabs when there are arrivals. *)
Definition show_arrivals (data : option json)
    : result (list st_call * option page) :=
  match data with
  | None => Ok ([error_station_not_found], None)
  | Some d =>
    if match d with JArr [] => true | _ => false end then
      Ok ([warning_no_trains], None)
    else
      items <- iter d ;;
      g <- group_trains items [] [] ;;
      Ok ([], Some (Tabs (snd g) (fst g)))
  end.

(** One pass of the script for a non-empty station name. *)
Definition run (API_KEY : pystr) (resp : response)
    : result (list st_call * option page) :=
  let (calls, data) := fetch_subway_data API_KEY resp in
  r <- show_arrivals data ;;
  Ok (calls ++ fst r, snd r).

End WithBuiltins.

(** The example record of the specification. *)
Definition example_train : json :=
  JObj [ (k_barvlDt, JStr (utf8 "125")); (k_arvlMsg2, JStr (utf8 ""));
         (k_arvlMsg3, JStr (utf8 "")); (k_arvlCd, JStr (utf8 "99"));
         (k_subwayId, JStr (utf8 "1002")); (k_updnLine, JStr (utf8 "상행"));
         (k_lstcarAt, JStr (utf8 "0")) ].

(** A garbage arrival message seen on the feed. *)
Definition garbage_message : pystr :=
  Eval vm_compute in utf8 "신림행 열차가 접수중입니다".

End Subway.

(** ** An instance of the builtins

    Enough of [int] to run the definitions on the feed's values: an optional
    sign and ASCII decimal digits.  The theorems below hold for every
    instance. *)

Module Reference.

Definition digit_value (c : codepoint) : option Z :=
  if ((48 <=? c) && (c <=? 57))%N then Some (Z.of_N c - 48)%Z else None.

Fixpoint digits_value (acc : Z) (s : pystr) : option Z :=
  match s with
  | [] => Some acc
  | c :: s' =>
    match digit_value c with
    | Some v => digits_value (10 * acc + v)%Z s'
    | None => None
    end
  end.

Definition unsigned_value (s : pystr) : option Z :=
  match s with
  | [] => None
  | _ => digits_value 0%Z s
  end.

Definition ascii_int (s : pystr) : option Z :=
  match s with
  | 45%N :: s' => option_map Z.opp (unsigned_value s')
  | 43%N :: s' => unsigned_value s'
  | _ => unsigned_value s
  end.

Definition builtins : Builtins :=
  {| int_of_str := ascii_int;
     str_of_container := fun v =>
       match v with
       | JArr _ => utf8 "[...]"
       | _ => utf8 "{...}"
       end |}.

End Reference.

(** ** The API key and the request URL

    [get_api_key] and the two lines of [fetch_subway_data] that build the URL.
    [st.secrets] is the environment: [None] when reading it raises (no
    secrets file) or the attribute is missing, otherwise its entries; a
    secret is a string. *)

Module Request.
Import Py.

Definition k_API_KEY : pystr := Eval vm_compute in utf8 "API_KEY".
Definition hard_coded_key : pystr :=
  Eval vm_compute in utf8 "654d446e737a6f7239355155714278".

Definition get_api_key (secrets : option (list (pystr * pystr))) : pystr :=
  match secrets with
  | Some d =>
    match lookup d k_API_KEY with
    | Some v => v
    | None => hard_coded_key
    end
  | None => hard_coded_key
  end.

(** [chr(c).encode('utf-8')]: [None] stands for [UnicodeEncodeError], raised
    for a surrogate; code points end at U+10FFFF. *)
Definition utf8_encode (c : codepoint) : option (list N) :=
  (if c <? 128 then Some [c]
   else if c <? 2048 then Some [192 + c / 64; 128 + c mod 64]
   else if (55296 <=? c) && (c <=? 57343) then None
   else if c <? 65536 then
     Some [224 + c / 4096; 128 + (c / 64) mod 64; 128 + c mod 64]
   else if c <? 1114112 then
     Some [240 + c / 262144; 128 + (c / 4096) mod 64;
           128 + (c / 64) mod 64; 128 + c mod 64]
   else None)%N.

(** The bytes [urllib.parse.quote] never escapes: letters, digits and
    [_.-~]. *)
Definition always_safe (b : N) : bool :=
  ((65 <=? b) && (b <=? 90) || (97 <=? b) && (b <=? 122)
   || (48 <=? b) && (b <=? 57)
   || (b =? 95) || (b =? 46) || (b =? 45) || (b =? 126))%N.

(** One digit of [%02X]. *)
Definition hex_digit (n : N) : codepoint :=
  (if n <? 10 then 48 + n else 55 + n)%N.

Definition quote_byte (b : N) : pystr :=
  if always_safe b then [b]
  else [37%N; hex_digit (b / 16); hex_digit (b mod 16)].

(** [quote(s, safe='')] *)
Fixpoint quote (s : pystr) : option pystr :=
  match s with
  | [] => Some []
  | c :: s' =>
    match utf8_encode c, quote s' with
    | Some bs, Some r => Some (flat_map quote_byte bs ++ r)
    | _, _ => None
    end
  end.

Definition url_prefix : pystr :=
  Eval vm_compute in utf8 "http://swopenAPI.seoul.go.kr/api/subway/".
Definition url_path : pystr :=
  Eval vm_compute in utf8 "/json/realtimeStationArrival/0/10/".

(** The URL requested for a station. *)
Definition request_url (API_KEY station_name : pystr) : option pystr :=
  match quote station_name with
  | Some encoded_station =>
    Some (url_prefix ++ API_KEY ++ url_path ++ encoded_station)
  | None => None
  end.

End Request.

Import Py Subway.

(** ** Facts about strings *)

Section StringFacts.

Lemma starts_with_head c w s :
  starts_with (c :: w) s = true -> exists s', s = c :: s'.
Proof.
  destruct s as [|b s']; simpl; [discriminate|].
  intros H. apply andb_true_iff in H. destruct H as [H _].
  apply N.eqb_eq in H. subst b. now exists s'.
Qed.

(** A word that occurs in [s] has its first code point in [s]. *)
Lemma contains_head_in c w s : contains (c :: w) s = true -> In c s.
Proof.
  induction s as [|b s' IH]; intros H.
  - simpl in H. discriminate.
  - cbn [contains] in H. apply orb_true_iff in H. destruct H as [H|H].
    + apply starts_with_head in H. destruct H as [t Ht].
      injection Ht as -> _. now left.
    + right. now apply IH.
Qed.

Lemma contains_absent c w s : ~ In c s -> contains (c :: w) s = false.
Proof.
  intros H. destruct (contains (c :: w) s) eqn:E; [|reflexivity].
  exfalso. apply H. eapply contains_head_in. exact E.
Qed.

Lemma uint_chars_digits d : Forall (fun c => is_digit c = true) (uint_chars d).
Proof.
  induction d; simpl; constructor; auto.
Qed.

Lemma uint_chars_nonempty d : d <> Nil -> uint_chars d <> [].
Proof.
  destruct d; simpl; congruence.
Qed.

Lemma str_of_int_digits z :
  (0 <= z)%Z -> Forall (fun c => is_digit c = true) (str_of_int z).
Proof.
  destruct z as [|p|p]; intros Hz; simpl.
  - repeat constructor.
  - apply uint_chars_digits.
  - lia.
Qed.

Lemma str_of_int_nonempty z : str_of_int z <> [].
Proof.
  destruct z as [|p|p]; simpl; try discriminate.
  apply uint_chars_nonempty, DecimalPos.Unsigned.to_uint_nonnil.
Qed.

(** The decimal form of a non-negative number starts with a digit. *)
Lemma str_of_int_head z :
  (0 <= z)%Z -> exists c t, str_of_int z = c :: t /\ is_digit c = true.
Proof.
  intros Hz. pose proof (str_of_int_digits Hz) as HF.
  pose proof (str_of_int_nonempty z) as HN.
  destruct (str_of_int z) as [|c t]; [congruence|].
  exists c, t. split; [reflexivity|]. now inversion HF.
Qed.

End StringFacts.

(** ** The line-code resolver *)

Section Resolver.
Context {builtins : Builtins}.

(** C9.  A known id resolves through the table, an unknown id to the id
    followed by the line suffix, and the empty id to the unknown constant. *)
Theorem get_subway_line_name_examples :
  get_subway_line_name (JStr (utf8 "1001")) = utf8 "1호선"
  /\ get_subway_line_name (JStr (utf8 "9999")) = utf8 "9999호선"
  /\ get_subway_line_name (JStr (utf8 "")) = utf8 "알 수 없음".
Proof.
  repeat split; vm_compute; reflexivity.
Qed.

End Resolver.

(** ** The text classifier *)

Section Classifier.

Lemma any_in_true words s w :
  In w words -> contains w s = true -> any_in words s = true.
Proof.
  intros Hin Hc. unfold any_in. apply existsb_exists. now exists w.
Qed.

(** C6.  The classifier rejects the empty string, and rejects every text in
    which a denylisted word occurs, whatever else the text holds: the
    denylist is tested before the allowlist. *)
Theorem denylist_before_allowlist :
  is_valid_station_text [] = false
  /\ forall text w,
       In w invalid_words_classifier -> contains w text = true ->
       is_valid_station_text text = false.
Proof.
  split; [reflexivity|].
  intros text w Hin Hc. unfold is_valid_station_text.
  destruct (is_empty text || (List.length text =? 0)%nat); [reflexivity|].
  now rewrite (any_in_true _ _ _ Hin Hc).
Qed.

(** A text with both a denylisted word and allowlisted ones. *)
Lemma denylist_before_allowlist_witness :
  any_in valid_keywords (utf8 "접수 3분 후 도착") = true
  /\ is_valid_station_text (utf8 "접수 3분 후 도착") = false.
Proof.
  split; [reflexivity|].
  apply (proj2 denylist_before_allowlist (utf8 "접수 3분 후 도착") w_receipt).
  - simpl. left. reflexivity.
  - reflexivity.
Defined.

End Classifier.

(** ** The computed time string *)

Section TimeString.
Context {builtins : Builtins}.

(** C5.  For a whole number of minutes the time string has no seconds
    clause, below one minute it has only the seconds, and at zero it is the
    arrived constant. *)
Theorem time_str_of_cases (s : Z) :
  (0 <= s)%Z ->
  ((0 < s)%Z -> (s mod 60 = 0)%Z ->
     time_str_of s = str_of_int (s / 60) ++ utf8 "분 후")
  /\ ((0 < s < 60)%Z -> time_str_of s = str_of_int s ++ utf8 "초 후")
  /\ (s = 0%Z -> time_str_of s = utf8 "도착").
Proof.
  intros Hs. unfold time_str_of. repeat split.
  - intros Hpos Hmod.
    assert (Hdiv : (0 < s / 60)%Z).
    { apply Z.div_str_pos.
      assert (60 <= s)%Z; [|lia].
      pose proof (Z.div_mod s 60 ltac:(lia)) as E. rewrite Hmod in E.
      destruct (Z.eq_dec (s / 60) 0) as [E0|E0]; [rewrite E0 in E; lia|].
      pose proof (Z.div_pos s 60 ltac:(lia) ltac:(lia)). lia. }
    replace (s >? 0)%Z with true by (symmetry; apply Z.gtb_lt; lia).
    replace (s / 60 >? 0)%Z with true by (symmetry; apply Z.gtb_lt; lia).
    rewrite Hmod. reflexivity.
  - intros [Hlo Hhi].
    replace (s >? 0)%Z with true by (symmetry; apply Z.gtb_lt; lia).
    rewrite (Z.div_small s 60) by lia. rewrite (Z.mod_small s 60) by lia.
    replace (s >? 0)%Z with true by (symmetry; apply Z.gtb_lt; lia).
    reflexivity.
  - intros ->. reflexivity.
Qed.

Lemma time_str_of_cases_witness :
  time_str_of 120 = utf8 "2분 후"
  /\ time_str_of 45 = utf8 "45초 후"
  /\ time_str_of 0 = utf8 "도착".
Proof.
  split; [|split].
  - apply (proj1 (time_str_of_cases (s := 120) ltac:(lia))); [lia|reflexivity].
  - apply (proj1 (proj2 (time_str_of_cases (s := 45) ltac:(lia)))); lia.
  - apply (proj2 (proj2 (time_str_of_cases (s := 0) ltac:(lia)))); reflexivity.
Defined.

Lemma digit_head_ne_soon z rest :
  (0 <= z)%Z -> str_of_int z ++ rest <> s_soon.
Proof.
  intros Hz E. destruct (str_of_int_head Hz) as (c & t & Hc & Hd).
  rewrite Hc in E. simpl in E. injection E as -> _. discriminate Hd.
Qed.

(** C10.  The time string computed by [parse_train_info] from the raw
    seconds field is never the [곧 도착] constant: when the seconds are
    positive, the minutes part or the seconds part is positive, so the
    branch that yields it is not taken. *)
Theorem soon_branch_unreachable (train_data : dict) :
  let barvl_seconds :=
    barvl_seconds_of (get train_data k_barvlDt (JStr s_zero)) in
  ((barvl_seconds >? 0)%Z = true ->
     (barvl_seconds / 60 >? 0)%Z = true
     \/ (barvl_seconds mod 60 >? 0)%Z = true)
  /\ time_str_of barvl_seconds <> s_soon.
Proof.
  cbv zeta. generalize (barvl_seconds_of (get train_data k_barvlDt (JStr s_zero))).
  intros s.
  assert (Hreach : (s >? 0)%Z = true ->
            (s / 60 >? 0)%Z = true \/ (s mod 60 >? 0)%Z = true).
  { intros Hpos. apply Z.gtb_lt in Hpos.
    pose proof (Z.div_mod s 60 ltac:(lia)) as E.
    pose proof (Z.mod_pos_bound s 60 ltac:(lia)) as B.
    destruct (Z.eq_dec (s mod 60) 0) as [E0|E0].
    - left. apply Z.gtb_lt. lia.
    - right. apply Z.gtb_lt. lia. }
  split; [exact Hreach|].
  unfold time_str_of.
  destruct (s >? 0)%Z eqn:Hpos; [|discriminate].
  apply Z.gtb_lt in Hpos.
  pose proof (Z.div_pos s 60 ltac:(lia) ltac:(lia)) as Hm.
  pose proof (Z.mod_pos_bound s 60 ltac:(lia)) as Hsec.
  destruct (s / 60 >? 0)%Z eqn:Hmin; destruct (s mod 60 >? 0)%Z eqn:Hs; cbn [andb].
  - apply digit_head_ne_soon. lia.
  - apply digit_head_ne_soon. lia.
  - apply digit_head_ne_soon. lia.
  - destruct (Hreach eq_refl); discriminate.
Qed.

End TimeString.

(** ** Direction grouping *)

Section Grouping.

Lemma up_check_str s :
  up_check (JStr s)
  = Ok (contains t_up s || contains t_inner s || contains t_sang s).
Proof.
  unfold up_check. simpl.
  destruct (contains t_up s); [reflexivity|].
  destruct (contains t_inner s); reflexivity.
Qed.

Lemma down_check_str s :
  down_check (JStr s)
  = Ok (contains t_down s || contains t_outer s || contains t_ha s).
Proof.
  unfold down_check. simpl.
  destruct (contains t_down s); [reflexivity|].
  destruct (contains t_outer s); reflexivity.
Qed.

(** C3, as the specification states it, fails: a code in which both an up
    token and a down token occur passes both tests, and the order of the
    tests decides its group. *)
Lemma checks_not_exclusive :
  up_check (JStr (utf8 "상하")) = Ok true
  /\ down_check (JStr (utf8 "상하")) = Ok true
  /\ direction_group (JStr (utf8 "상하")) = Ok Up
  /\ direction_group_down_first (JStr (utf8 "상하")) = Ok Down.
Proof.
  repeat split.
Qed.

(** C3, amended.  For a direction code that does not pass both tests, the
    order of the two tests does not change the group; a code that passes
    the up test is in the up group whatever else it holds, and a code that
    passes neither test is in the down group. *)
Theorem direction_group_order (s : pystr) :
  (up_check (JStr s) = Ok true -> direction_group (JStr s) = Ok Up)
  /\ (up_check (JStr s) = Ok false -> direction_group (JStr s) = Ok Down)
  /\ (~ (up_check (JStr s) = Ok true /\ down_check (JStr s) = Ok true) ->
       direction_group (JStr s) = direction_group_down_first (JStr s)).
Proof.
  unfold direction_group, direction_group_down_first.
  rewrite up_check_str, down_check_str.
  destruct (contains t_up s || contains t_inner s || contains t_sang s);
    destruct (contains t_down s || contains t_outer s || contains t_ha s);
    simpl; repeat split; intros; try reflexivity; try discriminate.
  exfalso. apply H. split; reflexivity.
Qed.

Lemma direction_group_order_witness :
  direction_group (JStr (utf8 "상행")) = Ok Up
  /\ direction_group (JStr (utf8 "외선")) = Ok Down
  /\ direction_group (JStr (utf8 "")) = Ok Down
  /\ direction_group (JStr (utf8 "하행"))
     = direction_group_down_first (JStr (utf8 "하행")).
Proof.
  split; [|split; [|split]].
  - apply (proj1 (direction_group_order (utf8 "상행"))). reflexivity.
  - apply (proj1 (proj2 (direction_group_order (utf8 "외선")))). reflexivity.
  - apply (proj1 (proj2 (direction_group_order (utf8 "")))). reflexivity.
  - apply (proj2 (proj2 (direction_group_order (utf8 "하행")))).
    intros [H _]. discriminate H.
Defined.

End Grouping.

(** ** The fetcher *)

Section Fetcher.
Context {builtins : Builtins}.

Lemma lookup_contains_str d k v :
  lookup d k = Some v -> contains_str k (JObj d) = Ok true.
Proof.
  intros H. simpl. now rewrite H.
Qed.

Lemma lookup_none_contains_str d k :
  lookup d k = None -> contains_str k (JObj d) = Ok false.
Proof.
  intros H. simpl. now rewrite H.
Qed.

(** C7.  When the response object embeds an error object whose code is not
    the success sentinel, the fetch makes the one API-error call, with the
    message of the error object (the default text if it has none), and
    returns no arrival list. *)
Theorem api_error_reported (API_KEY : pystr) (d error_info : dict) :
  API_KEY <> [] ->
  lookup d k_errorMessage = Some (JObj error_info) ->
  eq_str (get error_info k_code (JStr [])) s_info_000 = false ->
  fetch_subway_data API_KEY (Json (JObj d))
  = ([error_api (get error_info k_message (JStr s_unknown_error))], None).
Proof.
  intros Hkey Herr Hcode. unfold fetch_subway_data.
  destruct API_KEY as [|c k]; [congruence|]. cbn [is_empty].
  unfold classify_response, check_error_message.
  rewrite (lookup_contains_str _ _ Herr). cbn [bind getitem].
  rewrite Herr. cbn [bind get_method]. rewrite Hcode. reflexivity.
Qed.

Lemma api_error_reported_witness :
  fetch_subway_data (utf8 "654d446e737a6f7239355155714278")
    (Json (JObj [(k_errorMessage,
                  JObj [(k_code, JStr (utf8 "ERROR-300"));
                        (k_message, JStr (utf8 "invalid key"))])]))
  = ([error_api (JStr (utf8 "invalid key"))], None).
Proof.
  apply (@api_error_reported (utf8 "654d446e737a6f7239355155714278")
           [(k_errorMessage,
             JObj [(k_code, JStr (utf8 "ERROR-300"));
                   (k_message, JStr (utf8 "invalid key"))])]
           [(k_code, JStr (utf8 "ERROR-300"));
            (k_message, JStr (utf8 "invalid key"))]).
  - discriminate.
  - reflexivity.
  - reflexivity.
Defined.

(** C1, as the specification states it, fails: for the success sentinel
    with no arrival key the fetch returns no list, after a warning about
    the response format, and the page shows the station-not-found error. *)
Lemma sentinel_only_response_counterexample :
  let resp := Json (JObj [(k_errorMessage, JObj [(k_code, JStr s_info_000)])]) in
  fetch_subway_data (utf8 "654d446e737a6f7239355155714278") resp
  = ([warning_unexpected_format (Some [k_errorMessage])], None)
  /\ snd (fetch_subway_data (utf8 "654d446e737a6f7239355155714278") resp)
     <> Some (JArr [])
  /\ @run Reference.builtins (utf8 "654d446e737a6f7239355155714278") resp
     = Ok ([warning_unexpected_format (Some [k_errorMessage]);
            error_station_not_found], None).
Proof.
  cbv zeta. split; [reflexivity|]. split; [|reflexivity].
  vm_compute. discriminate.
Qed.

(** C1, amended.  When the response object carries the success sentinel
    and neither arrival key, the fetch reports no API error: it warns about
    the response format with the keys it saw and returns no list, and the
    page shows the station-not-found error. *)
Theorem info_000_without_list (API_KEY : pystr) (d error_info : dict) :
  API_KEY <> [] ->
  lookup d k_errorMessage = Some (JObj error_info) ->
  eq_str (get error_info k_code (JStr [])) s_info_000 = true ->
  lookup d k_realtimeArrivalList = None ->
  lookup d k_realtimeStationArrival = None ->
  fetch_subway_data API_KEY (Json (JObj d))
  = ([warning_unexpected_format (Some (map fst d))], None)
  /\ run API_KEY (Json (JObj d))
     = Ok ([warning_unexpected_format (Some (map fst d));
            error_station_not_found], None).
Proof.
  intros Hkey Herr Hcode Hcur Hleg.
  assert (Hfetch : fetch_subway_data API_KEY (Json (JObj d))
            = ([warning_unexpected_format (Some (map fst d))], None)).
  { unfold fetch_subway_data.
    destruct API_KEY as [|c k]; [congruence|]. cbn [is_empty].
    unfold classify_response, check_error_message.
    rewrite (lookup_contains_str _ _ Herr). cbn [bind getitem].
    rewrite Herr. cbn [bind get_method]. rewrite Hcode. cbn [negb bind].
    unfold select_payload.
    rewrite (lookup_none_contains_str _ _ Hcur). cbn [bind].
    rewrite (lookup_none_contains_str _ _ Hleg). reflexivity. }
  split; [exact Hfetch|].
  unfold run. rewrite Hfetch. reflexivity.
Qed.

(** With the success sentinel and an arrival key that holds an empty list,
    the fetch returns the empty list and the page shows the no-trains
    warning. *)
Lemma empty_list_shows_no_trains (API_KEY : pystr) (d error_info : dict) :
  API_KEY <> [] ->
  lookup d k_errorMessage = Some (JObj error_info) ->
  eq_str (get error_info k_code (JStr [])) s_info_000 = true ->
  lookup d k_realtimeArrivalList = Some (JArr []) ->
  fetch_subway_data API_KEY (Json (JObj d)) = ([], Some (JArr []))
  /\ run API_KEY (Json (JObj d)) = Ok ([warning_no_trains], None).
Proof.
  intros Hkey Herr Hcode Hcur.
  assert (Hfetch : fetch_subway_data API_KEY (Json (JObj d))
            = ([], Some (JArr []))).
  { unfold fetch_subway_data.
    destruct API_KEY as [|c k]; [congruence|]. cbn [is_empty].
    unfold classify_response, check_error_message.
    rewrite (lookup_contains_str _ _ Herr). cbn [bind getitem].
    rewrite Herr. cbn [bind get_method]. rewrite Hcode. cbn [negb bind].
    unfold select_payload.
    rewrite (lookup_contains_str _ _ Hcur). cbn [bind getitem].
    rewrite Hcur. reflexivity. }
  split; [exact Hfetch|].
  unfold run. rewrite Hfetch. reflexivity.
Qed.

End Fetcher.

Lemma info_000_without_list_witness :
  @run Reference.builtins (utf8 "654d446e737a6f7239355155714278")
    (Json (JObj [(k_errorMessage, JObj [(k_code, JStr s_info_000)])]))
  = Ok ([warning_unexpected_format (Some [k_errorMessage]);
         error_station_not_found], None).
Proof.
  apply (proj2 (@info_000_without_list Reference.builtins
                  (utf8 "654d446e737a6f7239355155714278")
                  [(k_errorMessage, JObj [(k_code, JStr s_info_000)])]
                  [(k_code, JStr s_info_000)]
                  ltac:(discriminate) eq_refl eq_refl eq_refl eq_refl)).
Defined.

(** ** The normaliser on the specification's example record *)

Section Example.
Context {builtins : Builtins}.

(** C8.  For the example record, with 125 seconds to arrival, the display
    time is [2분 5초 후], the line name [2호선], the last-train flag false,
    and the grouping loop puts the record in the up list. *)
Theorem example_record :
  int_of_str (utf8 "125") = Some 125%Z ->
  exists info,
    parse_train_info example_train = Ok info
    /\ time info = utf8 "2분 5초 후"
    /\ subway_line_name info = utf8 "2호선"
    /\ is_last_train info = false
    /\ direction_group (updn_line info) = Ok Up
    /\ group_trains [example_train] [] [] = Ok ([info], []).
Proof.
  intros Hint. unfold example_train.
  assert (Hsec : barvl_seconds_of (JStr (utf8 "125")) = 125%Z).
  { unfold barvl_seconds_of, int. rewrite Hint. reflexivity. }
  eexists. split.
  - unfold parse_train_info, parse_record.
    change (get _ k_barvlDt (JStr s_zero)) with (JStr (utf8 "125")).
    rewrite Hsec. reflexivity.
  - split; [reflexivity|]. split; [reflexivity|]. split; [reflexivity|].
    split; [reflexivity|].
    unfold group_trains, parse_train_info, parse_record.
    change (get _ k_barvlDt (JStr s_zero)) with (JStr (utf8 "125")).
    rewrite Hsec. reflexivity.
Qed.

End Example.

Lemma example_record_witness :
  @int_of_str Reference.builtins (utf8 "125") = Some 125%Z
  /\ exists info,
       @parse_train_info Reference.builtins example_train = Ok info
       /\ time info = utf8 "2분 5초 후"
       /\ direction_group (updn_line info) = Ok Up.
Proof.
  split; [reflexivity|].
  destruct (@example_record Reference.builtins eq_refl)
    as (info & Hparse & Htime & _ & _ & Hgroup & _).
  exists info. repeat split; assumption.
Defined.

(** ** The normaliser: garbage never reaches the card *)

Section Normaliser.
Context {builtins : Builtins}.

Lemma time_str_of_chars z c :
  In c (time_str_of z) ->
  is_digit c = true
  \/ In c (s_soon ++ s_arrived ++ s_min_sp ++ s_sec_after).
Proof.
  unfold time_str_of.
  destruct (z >? 0)%Z eqn:Hpos.
  - apply Z.gtb_lt in Hpos.
    pose proof (Z.div_pos z 60 ltac:(lia) ltac:(lia)) as Hm.
    pose proof (Z.mod_pos_bound z 60 ltac:(lia)) as Hs.
    pose proof (str_of_int_digits Hm) as Dm.
    pose proof (str_of_int_digits (proj1 Hs)) as Ds.
    rewrite Forall_forall in Dm, Ds.
    destruct ((z / 60 >? 0)%Z && (z mod 60 >? 0)%Z);
      [|destruct (z / 60 >? 0)%Z; [|destruct (z mod 60 >? 0)%Z]];
      intros Hin; repeat (apply in_app_or in Hin; destruct Hin as [Hin|Hin]);
      auto; right; revert Hin; vm_compute; tauto.
  - intros Hin. right. revert Hin. vm_compute. tauto.
Qed.

Lemma time_str_of_clean z : has_garbage (time_str_of z) = false.
Proof.
  assert (H : forall c, is_digit c = false ->
            ~ In c (s_soon ++ s_arrived ++ s_min_sp ++ s_sec_after) ->
            ~ In c (time_str_of z)).
  { intros c Hd Hn Hin. destruct (time_str_of_chars _ _ Hin) as [D|D].
    - congruence.
    - contradiction. }
  unfold has_garbage, w_receipt, w_global, w_import, w_convert.
  rewrite !contains_absent; [reflexivity| | | |];
    (apply H; [reflexivity|]); vm_compute; intuition discriminate.
Qed.

Lemma has_garbage_words s w :
  has_garbage s = false -> In w invalid_words -> contains w s = false.
Proof.
  unfold has_garbage, invalid_words. intros H Hin.
  repeat (apply orb_false_iff in H; destruct H as [H ?]).
  simpl in Hin. intuition (subst; assumption).
Qed.

(** The final filtering leaves a string without denylisted words. *)
Lemma filtered_clean (s : pystr) (barvl_seconds : Z) :
  has_garbage
    (if has_garbage s then
       if (barvl_seconds >? 0)%Z then time_str_of barvl_seconds
       else s_arrived
     else s) = false.
Proof.
  destruct (has_garbage s) eqn:E; [|exact E].
  destruct (barvl_seconds >? 0)%Z; [apply time_str_of_clean|reflexivity].
Qed.

Lemma fallback_text_clean z cd :
  has_garbage (fallback_text z (time_str_of z) cd) = false.
Proof.
  unfold fallback_text.
  destruct (z >? 0)%Z; [apply time_str_of_clean|].
  destruct (eq_str cd s_zero); [reflexivity|].
  destruct (eq_str cd s_one); reflexivity.
Qed.

Lemma status_and_time_invalid m z ts cd :
  status_and_time false m z ts cd
  = (fallback_text z ts cd, fallback_text z ts cd).
Proof.
  reflexivity.
Qed.

(** Normalisation returns exactly on the dicts whose two message fields are
    strings or absent; on anything else [.get] or [.strip] raises. *)
Lemma parse_train_info_ok_inv (train_data : json) (info : train_info) :
  parse_train_info train_data = Ok info ->
  exists d m2 m3,
    train_data = JObj d
    /\ get d k_arvlMsg2 (JStr []) = JStr m2
    /\ get d k_arvlMsg3 (JStr []) = JStr m3.
Proof.
  destruct train_data as [| | | | |d]; try discriminate.
  unfold parse_train_info, parse_record.
  destruct (get d k_arvlMsg2 (JStr [])) as [| | |m2| |] eqn:E2;
    try discriminate.
  destruct (get d k_arvlMsg3 (JStr [])) as [| | |m3| |] eqn:E3;
    try discriminate.
  intros _. exists d, m2, m3. repeat split; assumption.
Qed.

(** For a record whose two message fields are strings (or absent),
    normalisation returns, no denylisted word is in the status or in the
    display time, and the garbage message gives the last [else] of the
    status selection. *)
Lemma scrubbed_record_fields (train_data : dict) (m2 m3 : pystr) :
  get train_data k_arvlMsg2 (JStr []) = JStr m2 ->
  get train_data k_arvlMsg3 (JStr []) = JStr m3 ->
  exists info,
    parse_train_info (JObj train_data) = Ok info
    /\ (forall w, In w invalid_words ->
          contains w (status info) = false /\ contains w (time info) = false)
    /\ (m2 = garbage_message ->
        let barvl_seconds :=
          barvl_seconds_of (get train_data k_barvlDt (JStr s_zero)) in
        let arvl_cd := get train_data k_arvlCd (JStr []) in
        let time_str := time_str_of barvl_seconds in
        status info = fallback_text barvl_seconds time_str arvl_cd
        /\ time info = fallback_text barvl_seconds time_str arvl_cd).
Proof.
  intros H2 H3. unfold parse_train_info, parse_record.
  rewrite H2, H3. cbn [strip_method bind].
  eexists. split; [reflexivity|]. cbn [status time]. split.
  - intros w Hw. split; apply has_garbage_words; auto; apply filtered_clean.
  - intros ->. cbv zeta.
    change (strip garbage_message) with garbage_message.
    change (any_in invalid_words garbage_message) with true. cbv iota.
    cbn [is_empty negb].
    rewrite status_and_time_invalid. cbn [fst snd].
    rewrite fallback_text_clean. split; reflexivity.
Qed.

Lemma str_eqb_eq a : forall b, str_eqb a b = true -> a = b.
Proof.
  induction a as [|x a IH]; intros [|y b] H; try discriminate H.
  - reflexivity.
  - cbn in H. apply andb_true_iff in H. destruct H as [Hx Hr].
    apply N.eqb_eq in Hx. subst y. f_equal. now apply IH.
Qed.

Lemma eq_str_true v s : eq_str v s = true -> v = JStr s.
Proof.
  destruct v; try discriminate. cbn. intros H. f_equal. now apply str_eqb_eq.
Qed.

(** The last [else] of the status selection, value by value. *)
Lemma fallback_text_values z ts cd :
  ((0 < z)%Z -> fallback_text z ts cd = ts)
  /\ ((z <= 0)%Z -> cd = JStr s_one -> fallback_text z ts cd = s_entering)
  /\ ((z <= 0)%Z -> cd <> JStr s_one -> fallback_text z ts cd = s_arrived).
Proof.
  unfold fallback_text. split; [|split].
  - intros Hz.
    replace (z >? 0)%Z with true by (symmetry; apply Z.gtb_lt; lia).
    reflexivity.
  - intros Hz ->.
    replace (z >? 0)%Z with false
      by (symmetry; rewrite Z.gtb_ltb; apply Z.ltb_ge; lia).
    reflexivity.
  - intros Hz Hcd.
    replace (z >? 0)%Z with false
      by (symmetry; rewrite Z.gtb_ltb; apply Z.ltb_ge; lia).
    destruct (eq_str cd s_zero); [reflexivity|].
    destruct (eq_str cd s_one) eqn:E; [|reflexivity].
    apply eq_str_true in E. contradiction.
Qed.

(** C4.  Whenever normalisation returns, no denylisted word is in the
    status or in the display time.  When [arvlMsg2] is the garbage message,
    both are the time string if the seconds are positive, and otherwise
    [진입중] if the arrival code is ["1"] and [도착] if it is anything else.
    Normalisation does return when the seconds field is a string or an
    [int] and the two message fields are strings (or the fields are
    absent). *)
Theorem garbage_never_shown (train_data : dict) :
  (forall info,
     parse_train_info (JObj train_data) = Ok info ->
     (forall w, In w invalid_words ->
        contains w (status info) = false /\ contains w (time info) = false)
     /\ (get train_data k_arvlMsg2 (JStr []) = JStr garbage_message ->
         let barvl_seconds :=
           barvl_seconds_of (get train_data k_barvlDt (JStr s_zero)) in
         let arvl_cd := get train_data k_arvlCd (JStr []) in
         ((0 < barvl_seconds)%Z ->
            status info = time_str_of barvl_seconds
            /\ time info = time_str_of barvl_seconds)
         /\ ((barvl_seconds <= 0)%Z -> arvl_cd = JStr (utf8 "1") ->
             status info = utf8 "진입중" /\ time info = utf8 "진입중")
         /\ ((barvl_seconds <= 0)%Z -> arvl_cd <> JStr (utf8 "1") ->
             status info = utf8 "도착" /\ time info = utf8 "도착")))
  /\ ((exists b, get train_data k_barvlDt (JStr s_zero) = JStr b)
       \/ (exists z, get train_data k_barvlDt (JStr s_zero) = JInt z) ->
      (exists m2, get train_data k_arvlMsg2 (JStr []) = JStr m2) ->
      (exists m3, get train_data k_arvlMsg3 (JStr []) = JStr m3) ->
      exists info, parse_train_info (JObj train_data) = Ok info).
Proof.
  split.
  - intros info Hp.
    destruct (parse_train_info_ok_inv _ Hp) as (d & m2 & m3 & E & H2 & H3).
    assert (d = train_data) by congruence. subst d. clear E.
    destruct (scrubbed_record_fields _ H2 H3) as (info' & Hp' & Hclean & Hfb).
    assert (info' = info) by congruence. subst info'.
    split; [exact Hclean|].
    intros Hg. cbv zeta.
    assert (m2 = garbage_message) by congruence. subst m2.
    destruct (Hfb eq_refl) as [Hs Ht]. cbv zeta in Hs, Ht.
    rewrite Hs, Ht.
    destruct (fallback_text_values
                (barvl_seconds_of (get train_data k_barvlDt (JStr s_zero)))
                (time_str_of
                   (barvl_seconds_of (get train_data k_barvlDt (JStr s_zero))))
                (get train_data k_arvlCd (JStr [])))
      as (Hpos & Hone & Hother).
    split; [|split].
    + intros Hz. rewrite (Hpos Hz). split; reflexivity.
    + intros Hz Hcd. rewrite (Hone Hz Hcd). split; reflexivity.
    + intros Hz Hcd. rewrite (Hother Hz Hcd). split; reflexivity.
  - intros _ [m2 H2] [m3 H3].
    destruct (scrubbed_record_fields _ H2 H3) as (info & Hp & _).
    now exists info.
Qed.

End Normaliser.

Lemma garbage_never_shown_witness :
  (exists info,
     @parse_train_info Reference.builtins
       (JObj [(k_barvlDt, JStr (utf8 "90")); (k_arvlMsg2, JStr garbage_message)])
     = Ok info
     /\ contains w_receipt (status info) = false
     /\ status info = utf8 "1분 30초 후"
     /\ time info = utf8 "1분 30초 후")
  /\ (exists info,
       @parse_train_info Reference.builtins
         (JObj [(k_barvlDt, JStr (utf8 "0")); (k_arvlCd, JStr (utf8 "1"));
                (k_arvlMsg2, JStr garbage_message)])
       = Ok info
       /\ status info = utf8 "진입중" /\ time info = utf8 "진입중")
  /\ (exists info,
       @parse_train_info Reference.builtins
         (JObj [(k_barvlDt, JStr (utf8 "0")); (k_arvlCd, JStr (utf8 "0"));
                (k_arvlMsg2, JStr garbage_message)])
       = Ok info
       /\ status info = utf8 "도착" /\ time info = utf8 "도착").
Proof.
  split; [|split].
  - destruct (@garbage_never_shown Reference.builtins
                [(k_barvlDt, JStr (utf8 "90"));
                 (k_arvlMsg2, JStr garbage_message)]) as [Hret Hex].
    destruct Hex as [info Hp].
    + left. exists (utf8 "90"). reflexivity.
    + exists garbage_message. reflexivity.
    + exists []. reflexivity.
    + exists info. split; [exact Hp|].
      destruct (Hret info Hp) as [Hclean Hg]. split.
      * apply (Hclean w_receipt). simpl. left. reflexivity.
      * apply (proj1 (Hg eq_refl)). reflexivity.
  - destruct (@garbage_never_shown Reference.builtins
                [(k_barvlDt, JStr (utf8 "0")); (k_arvlCd, JStr (utf8 "1"));
                 (k_arvlMsg2, JStr garbage_message)]) as [Hret Hex].
    destruct Hex as [info Hp].
    + left. exists (utf8 "0"). reflexivity.
    + exists garbage_message. reflexivity.
    + exists []. reflexivity.
    + exists info. split; [exact Hp|].
      destruct (Hret info Hp) as [_ Hg].
      apply (proj1 (proj2 (Hg eq_refl))).
      * discriminate.
      * reflexivity.
  - destruct (@garbage_never_shown Reference.builtins
                [(k_barvlDt, JStr (utf8 "0")); (k_arvlCd, JStr (utf8 "0"));
                 (k_arvlMsg2, JStr garbage_message)]) as [Hret Hex].
    destruct Hex as [info Hp].
    + left. exists (utf8 "0"). reflexivity.
    + exists garbage_message. reflexivity.
    + exists []. reflexivity.
    + exists info. split; [exact Hp|].
      destruct (Hret info Hp) as [_ Hg].
      apply (proj2 (proj2 (Hg eq_refl))).
      * discriminate.
      * discriminate.
Defined.

(** ** The normaliser: display fallbacks *)

Section Fallbacks.
Context {builtins : Builtins}.

Lemma time_str_of_nonempty z : time_str_of z <> [].
Proof.
  unfold time_str_of.
  destruct (z >? 0)%Z; [|discriminate].
  destruct ((z / 60 >? 0)%Z && (z mod 60 >? 0)%Z);
    [|destruct (z / 60 >? 0)%Z; [|destruct (z mod 60 >? 0)%Z]];
    try discriminate;
    intros E; apply app_eq_nil in E; destruct E as [E _];
    exact (str_of_int_nonempty _ E).
Qed.

Lemma fallback_text_nonempty z ts cd :
  ts <> [] -> fallback_text z ts cd <> [].
Proof.
  intros Hts. unfold fallback_text.
  destruct (z >? 0)%Z; [exact Hts|].
  destruct (eq_str cd s_zero); [discriminate|].
  destruct (eq_str cd s_one); discriminate.
Qed.

Lemma status_and_time_nonempty v m z ts cd :
  (v = true -> m <> []) -> ts <> [] ->
  fst (status_and_time v m z ts cd) <> []
  /\ snd (status_and_time v m z ts cd) <> [].
Proof.
  intros Hm Hts. unfold status_and_time.
  destruct v; cbn [andb].
  - specialize (Hm eq_refl).
    destruct (contains s_min m || contains s_sec m || contains s_after m);
      [now split|].
    destruct (contains s_arrived m || contains s_entering_tok m).
    { cbn [fst snd]. split; [exact Hm|].
      destruct (z >? 0)%Z; [exact Hts|discriminate]. }
    destruct (contains s_prev_station m).
    { cbn [fst snd]. split; [exact Hm|].
      destruct (z >? 0)%Z; [exact Hts|discriminate]. }
    cbn [fst snd]. split; now apply fallback_text_nonempty.
  - cbn [fst snd]. split; now apply fallback_text_nonempty.
Qed.

Lemma filtered_nonempty (s : pystr) (z : Z) :
  s <> [] ->
  (if has_garbage s then if (z >? 0)%Z then time_str_of z else s_arrived
   else s) <> [].
Proof.
  intros Hs. destruct (has_garbage s); [|exact Hs].
  destruct (z >? 0)%Z; [apply time_str_of_nonempty|discriminate].
Qed.

(** X1.  The part of C2 the code keeps: whenever normalisation returns,
    status, display time and current location are non-empty, and the
    direction is the empty string only if the record itself holds an empty
    [bstatnNm]. *)
Lemma display_fields_nonempty (train_data : json) (info : train_info) :
  parse_train_info train_data = Ok info ->
  status info <> [] /\ time info <> [] /\ current info <> []
  /\ (direction info = JStr [] ->
      exists d, train_data = JObj d /\ lookup d k_bstatnNm = Some (JStr [])).
Proof.
  destruct train_data as [| | | | |d]; try discriminate.
  unfold parse_train_info, parse_record.
  destruct (strip_method (get d k_arvlMsg2 (JStr []))) as [m2|]; [|discriminate].
  destruct (strip_method (get d k_arvlMsg3 (JStr []))) as [m3|]; [|discriminate].
  cbn [bind]. intros E.
  assert (Hv : (if negb (is_empty (if any_in invalid_words m2 then [] else m2))
                then is_valid_station_text
                       (if any_in invalid_words m2 then [] else m2)
                else false) = true ->
               (if any_in invalid_words m2 then [] else m2) <> []).
  { destruct (any_in invalid_words m2); [intros H; discriminate H|].
    destruct m2; [intros H; discriminate H|]. intros _. discriminate. }
  injection E as E. subst info.
  cbv beta iota delta [status time current direction].
  match goal with
  | |- context [status_and_time ?v ?m ?z ?ts ?cd] =>
    destruct (@status_and_time_nonempty v m z ts cd Hv
                (time_str_of_nonempty _)) as [Hst Htm]
  end.
  split; [now apply filtered_nonempty|].
  split; [now apply filtered_nonempty|].
  split.
  - match goal with
    | |- (if negb (is_empty ?c) then _ else _) <> [] =>
      destruct c; cbn [is_empty negb]; discriminate
    end.
  - intros Hdir. exists d. split; [reflexivity|].
    unfold get in Hdir. destruct (lookup d k_bstatnNm) as [v|].
    + now subst v.
    + discriminate Hdir.
Qed.

(** C2 against the code: a record whose [bstatnNm] is present and empty is
    normalised to an empty direction; the default of [get] covers only the
    absent key, unlike the current-location field, which is tested for
    emptiness. *)
Theorem empty_direction_kept :
  exists info,
    parse_train_info (JObj [(k_bstatnNm, JStr (utf8 ""))]) = Ok info
    /\ direction info = JStr (utf8 "")
    /\ current info = s_unknown.
Proof.
  eexists. split; [reflexivity|]. split; reflexivity.
Qed.

End Fallbacks.

(** ** More on the fetcher: what a fetch can return *)

Section FetchOutcomes.
Context {builtins : Builtins}.

Lemma list_or_empty_shape a r :
  list_or_empty a = Ok r ->
  r = JArr [] \/ exists x items, iter r = Ok (x :: items).
Proof.
  unfold list_or_empty.
  destruct a as [|b|z|s|l|d]; cbn; try (intros E; injection E as <-; now left).
  - destruct b; [discriminate|]. intros E; injection E as <-; now left.
  - destruct (negb (z =? 0)%Z); [discriminate|].
    intros E; injection E as <-; now left.
  - destruct s as [|c s]; cbn; intros E; injection E as <-; [now left|].
    right. now exists (JStr [c]), (map (fun c => JStr [c]) s).
  - destruct l as [|x l]; cbn; intros E; injection E as <-; [now left|].
    right. now exists x, l.
  - destruct d as [|[k v] d]; cbn; intros E; injection E as <-; [now left|].
    right. now exists (JStr k), (map (fun kv => JStr (fst kv)) d).
Qed.

Lemma check_error_message_early data r :
  check_error_message data = Ok (Some r) ->
  exists error_msg, r = ([error_api error_msg], None).
Proof.
  unfold check_error_message.
  destruct (contains_str k_errorMessage data) as [[|]|]; cbn [bind];
    try discriminate.
  destruct (getitem data k_errorMessage) as [error_info|]; cbn [bind];
    [|discriminate].
  destruct (get_method error_info k_code (JStr [])) as [code|]; cbn [bind];
    [|discriminate].
  destruct (negb (eq_str code s_info_000)); [|discriminate].
  destruct (get_method error_info k_message (JStr s_unknown_error))
    as [m|]; cbn [bind]; [|discriminate].
  intros E. injection E as <-. now exists m.
Qed.

Lemma select_payload_shape data calls res :
  select_payload data = Ok (calls, res) ->
  match res with
  | None => exists c, calls = [c]
  | Some v =>
    calls = [] /\ (v = JArr [] \/ exists x items, iter v = Ok (x :: items))
  end.
Proof.
  unfold select_payload.
  destruct (contains_str k_realtimeArrivalList data) as [[|]|]; cbn [bind];
    try discriminate.
  { destruct (getitem data k_realtimeArrivalList) as [a|]; cbn [bind];
      [|discriminate].
    destruct (list_or_empty a) as [r|] eqn:E; cbn [bind]; [|discriminate].
    intros H. injection H as <- <-. split; [reflexivity|].
    exact (list_or_empty_shape _ E). }
  destruct (contains_str k_realtimeStationArrival data) as [[|]|];
    cbn [bind]; try discriminate.
  { destruct (getitem data k_realtimeStationArrival) as [a|]; cbn [bind];
      [|discriminate].
    destruct (list_or_empty a) as [r|] eqn:E; cbn [bind]; [|discriminate].
    intros H. injection H as <- <-. split; [reflexivity|].
    exact (list_or_empty_shape _ E). }
  destruct data as [|b|z|s|l|d]; intros H; injection H as <- <-;
    try (now eexists).
  split; [reflexivity|].
  destruct l as [|x l]; [now left|]. right. now exists x, l.
Qed.

Lemma fetch_shape API_KEY resp calls res :
  fetch_subway_data API_KEY resp = (calls, res) ->
  match res with
  | None => exists c, calls = [c]
  | Some v =>
    calls = [] /\ (v = JArr [] \/ exists x items, iter v = Ok (x :: items))
  end.
Proof.
  unfold fetch_subway_data.
  destruct (is_empty API_KEY).
  { intros H. injection H as <- <-. now eexists. }
  destruct resp as [e|data].
  { intros H. injection H as <- <-. now eexists. }
  unfold classify_response.
  destruct (check_error_message data) as [[r|]|e] eqn:E; cbn [bind].
  - destruct (check_error_message_early _ E) as [m ->].
    intros H. injection H as <- <-. now eexists.
  - destruct (select_payload data) as [[c v]|e] eqn:Es.
    + intros H. injection H as <- <-. exact (select_payload_shape _ Es).
    + intros H. injection H as <- <-. now eexists.
  - intros H. injection H as <- <-. now eexists.
Qed.

(** X2.  A fetch that returns a value has made no [st.error] or
    [st.warning] call, and the value is the empty list or a value the
    grouping loop can iterate, with at least one item. *)
Theorem fetch_value_iterable (API_KEY : pystr) (resp : response)
    (calls : list st_call) (v : json) :
  fetch_subway_data API_KEY resp = (calls, Some v) ->
  calls = []
  /\ (v = JArr [] \/ exists x items, iter v = Ok (x :: items)).
Proof.
  intros H. apply fetch_shape in H. exact H.
Qed.

(** X3.  After any fetch that returns [None] (missing key, transport
    failure, API error, unexpected format, exception), the page shows two
    messages: the one of the fetch, then the station-not-found error. *)
Theorem failed_fetch_shows_not_found (API_KEY : pystr) (resp : response)
    (calls : list st_call) :
  fetch_subway_data API_KEY resp = (calls, None) ->
  exists c,
    calls = [c]
    /\ run API_KEY resp = Ok ([c; error_station_not_found], None).
Proof.
  intros H. destruct (fetch_shape _ _ H) as [c ->]. exists c.
  split; [reflexivity|]. unfold run. rewrite H. reflexivity.
Qed.

Lemma select_payload_current d a :
  lookup d k_realtimeArrivalList = Some a ->
  select_payload (JObj d)
  = (r <- list_or_empty a ;; Ok ([], Some r)).
Proof.
  intros H. unfold select_payload.
  rewrite (lookup_contains_str _ _ H). cbn [bind getitem]. now rewrite H.
Qed.

Lemma select_payload_legacy d a :
  lookup d k_realtimeArrivalList = None ->
  lookup d k_realtimeStationArrival = Some a ->
  select_payload (JObj d)
  = (r <- list_or_empty a ;; Ok ([], Some r)).
Proof.
  intros Hc H. unfold select_payload.
  rewrite (lookup_none_contains_str _ _ Hc). cbn [bind].
  rewrite (lookup_contains_str _ _ H). cbn [bind getitem]. now rewrite H.
Qed.

(** X4.  When the response passes the error check and has the current
    arrival key, the fetch depends on nothing but the value under that key:
    it is the fetch of a response that holds only that entry, whatever is
    under the legacy key. *)
Theorem current_key_decides (API_KEY : pystr) (d : dict) (a : json) :
  check_error_message (JObj d) = Ok None ->
  lookup d k_realtimeArrivalList = Some a ->
  fetch_subway_data API_KEY (Json (JObj d))
  = fetch_subway_data API_KEY (Json (JObj [(k_realtimeArrivalList, a)])).
Proof.
  intros He Hc. unfold fetch_subway_data, classify_response.
  rewrite He. cbn [bind].
  rewrite (select_payload_current _ Hc).
  change (check_error_message (JObj [(k_realtimeArrivalList, a)]))
    with (@Ok (option (list st_call * option json)) None).
  cbn [bind].
  rewrite (@select_payload_current [(k_realtimeArrivalList, a)] a eq_refl).
  reflexivity.
Qed.

(** X5.  The legacy arrival key is read only when the current key is
    absent, and then its value is treated exactly as a value under the
    current key. *)
Theorem legacy_key_as_current (API_KEY : pystr) (d : dict) (a : json) :
  check_error_message (JObj d) = Ok None ->
  lookup d k_realtimeArrivalList = None ->
  lookup d k_realtimeStationArrival = Some a ->
  fetch_subway_data API_KEY (Json (JObj d))
  = fetch_subway_data API_KEY (Json (JObj [(k_realtimeArrivalList, a)])).
Proof.
  intros He Hc Hl. unfold fetch_subway_data, classify_response.
  rewrite He. cbn [bind].
  rewrite (select_payload_legacy _ Hc Hl).
  change (check_error_message (JObj [(k_realtimeArrivalList, a)]))
    with (@Ok (option (list st_call * option json)) None).
  cbn [bind].
  rewrite (@select_payload_current [(k_realtimeArrivalList, a)] a eq_refl).
  reflexivity.
Qed.

(** X6.  A falsy value under the arrival key ([null], [0], [false], an empty
    string, list or object) is returned as the empty list, and the page
    shows the no-trains warning. *)
Theorem falsy_arrival_list_is_empty (API_KEY : pystr) (d : dict) (a : json) :
  API_KEY <> [] ->
  check_error_message (JObj d) = Ok None ->
  lookup d k_realtimeArrivalList = Some a ->
  truthy a = false ->
  fetch_subway_data API_KEY (Json (JObj d)) = ([], Some (JArr []))
  /\ run API_KEY (Json (JObj d)) = Ok ([warning_no_trains], None).
Proof.
  intros Hk He Hc Ha.
  assert (Hf : fetch_subway_data API_KEY (Json (JObj d))
               = ([], Some (JArr []))).
  { unfold fetch_subway_data, classify_response.
    destruct API_KEY; [congruence|]. cbn [is_empty].
    rewrite He. cbn [bind]. rewrite (select_payload_current _ Hc).
    unfold list_or_empty. rewrite Ha. reflexivity. }
  split; [exact Hf|]. unfold run. rewrite Hf. reflexivity.
Qed.

(** X7.  A body that decodes to [null], a boolean or a number makes the
    first membership test raise; the fetch reports the exception and
    returns [None]. *)
Theorem scalar_body_is_exception (API_KEY : pystr) (data : json) :
  API_KEY <> [] ->
  data = JNull \/ (exists b, data = JBool b) \/ (exists z, data = JInt z) ->
  fetch_subway_data API_KEY (Json data) = ([error_exception TypeError], None).
Proof.
  intros Hk H. destruct API_KEY; [congruence|].
  destruct H as [->|[[b ->]|[z ->]]]; reflexivity.
Qed.

(** X8.  An [errorMessage] entry that is not an object (a string, a list, a
    number, [null]) is not reported as an API error: reading its code
    raises, and the fetch reports the exception. *)
Theorem malformed_error_object (API_KEY : pystr) (d : dict) (v : json) :
  API_KEY <> [] ->
  lookup d k_errorMessage = Some v ->
  (forall error_info, v <> JObj error_info) ->
  fetch_subway_data API_KEY (Json (JObj d))
  = ([error_exception AttributeError], None).
Proof.
  intros Hk Hl Hv. destruct API_KEY; [congruence|].
  unfold fetch_subway_data, classify_response, check_error_message.
  cbn [is_empty]. rewrite (lookup_contains_str _ _ Hl). cbn [bind getitem].
  rewrite Hl. cbn [bind].
  destruct v; try reflexivity. exfalso. now apply (Hv d0).
Qed.

(** X9.  A body that is a bare list of objects is returned as it is (the
    empty list for an empty body), with no [st.error] or [st.warning]
    call. *)
Theorem bare_list_returned (API_KEY : pystr) (l : list json) :
  API_KEY <> [] ->
  Forall (fun x => exists d, x = JObj d) l ->
  fetch_subway_data API_KEY (Json (JArr l)) = ([], Some (JArr l)).
Proof.
  intros Hk Hl. destruct API_KEY; [congruence|].
  assert (Hno : forall k, existsb (fun x => eq_str x k) l = false).
  { intros k. induction Hl as [|x l [d ->] _ IH]; [reflexivity|].
    cbn. exact IH. }
  unfold fetch_subway_data, classify_response, check_error_message,
    select_payload.
  cbn [is_empty contains_str bind]. rewrite !Hno. cbn [bind].
  destruct l; reflexivity.
Qed.

End FetchOutcomes.

Lemma fetch_value_iterable_witness :
  ([] : list st_call) = []
  /\ (JArr [example_train] = JArr []
      \/ exists x items, iter (JArr [example_train]) = Ok (x :: items)).
Proof.
  exact (@fetch_value_iterable Request.hard_coded_key
           (Json (JObj [(k_realtimeArrivalList, JArr [example_train])]))
           [] (JArr [example_train]) eq_refl).
Defined.

Lemma failed_fetch_shows_not_found_witness :
  exists c,
    [error_request (utf8 "timed out")] = [c]
    /\ @run Reference.builtins Request.hard_coded_key
         (RequestException (utf8 "timed out"))
       = Ok ([c; error_station_not_found], None).
Proof.
  exact (@failed_fetch_shows_not_found Reference.builtins
           Request.hard_coded_key (RequestException (utf8 "timed out"))
           _ eq_refl).
Defined.

Lemma current_key_decides_witness :
  fetch_subway_data Request.hard_coded_key
    (Json (JObj [(k_errorMessage, JObj [(k_code, JStr s_info_000)]);
                 (k_realtimeStationArrival, JArr []);
                 (k_realtimeArrivalList, JArr [example_train])]))
  = fetch_subway_data Request.hard_coded_key
      (Json (JObj [(k_realtimeArrivalList, JArr [example_train])])).
Proof.
  exact (@current_key_decides Request.hard_coded_key
           [(k_errorMessage, JObj [(k_code, JStr s_info_000)]);
            (k_realtimeStationArrival, JArr []);
            (k_realtimeArrivalList, JArr [example_train])]
           (JArr [example_train]) eq_refl eq_refl).
Defined.

Lemma legacy_key_as_current_witness :
  fetch_subway_data Request.hard_coded_key
    (Json (JObj [(k_realtimeStationArrival, JArr [example_train])]))
  = fetch_subway_data Request.hard_coded_key
      (Json (JObj [(k_realtimeArrivalList, JArr [example_train])])).
Proof.
  exact (@legacy_key_as_current Request.hard_coded_key
           [(k_realtimeStationArrival, JArr [example_train])]
           (JArr [example_train]) eq_refl eq_refl eq_refl).
Defined.

Lemma falsy_arrival_list_is_empty_witness :
  fetch_subway_data Request.hard_coded_key
    (Json (JObj [(k_realtimeArrivalList, JNull)])) = ([], Some (JArr []))
  /\ @run Reference.builtins Request.hard_coded_key
       (Json (JObj [(k_realtimeArrivalList, JNull)]))
     = Ok ([warning_no_trains], None).
Proof.
  apply (@falsy_arrival_list_is_empty Reference.builtins
           Request.hard_coded_key [(k_realtimeArrivalList, JNull)] JNull).
  - discriminate.
  - reflexivity.
  - reflexivity.
  - reflexivity.
Defined.

Lemma scalar_body_is_exception_witness :
  fetch_subway_data Request.hard_coded_key (Json JNull)
  = ([error_exception TypeError], None).
Proof.
  apply scalar_body_is_exception.
  - discriminate.
  - left. reflexivity.
Defined.

Lemma malformed_error_object_witness :
  fetch_subway_data Request.hard_coded_key
    (Json (JObj [(k_errorMessage, JStr (utf8 "invalid key"))]))
  = ([error_exception AttributeError], None).
Proof.
  apply (@malformed_error_object Request.hard_coded_key
           [(k_errorMessage, JStr (utf8 "invalid key"))]
           (JStr (utf8 "invalid key"))).
  - discriminate.
  - reflexivity.
  - discriminate.
Defined.

Lemma bare_list_returned_witness :
  fetch_subway_data Request.hard_coded_key (Json (JArr [example_train]))
  = ([], Some (JArr [example_train])).
Proof.
  apply bare_list_returned.
  - discriminate.
  - constructor; [|constructor]. unfold example_train. eexists. reflexivity.
Defined.

(** ** More on grouping: the two tabs *)

Section Tabs.
Context {builtins : Builtins}.

Lemma starts_with_app_l w x s :
  starts_with (w ++ x) s = true -> starts_with w s = true.
Proof.
  revert s. induction w as [|a w IH]; intros s H; [now destruct s|].
  destruct s as [|b s]; [discriminate H|].
  cbn in H |- *. apply andb_true_iff in H. destruct H as [H1 H2].
  rewrite H1. cbn. now apply IH.
Qed.

(** A text in which [w ++ x] occurs has [w] in it. *)
Lemma contains_app_l w x s :
  contains (w ++ x) s = true -> contains w s = true.
Proof.
  induction s as [|b s IH]; intros H.
  - cbn in H |- *. rewrite orb_false_r in H |- *.
    now apply starts_with_app_l with x.
  - cbn [contains] in H |- *. apply orb_true_iff in H.
    apply orb_true_iff. destruct H as [H|H].
    + left. now apply starts_with_app_l with x.
    + right. now apply IH.
Qed.

(** X10.  For a direction code that is a string, the group is decided by
    two tokens only: up when the code holds [상] or [내선], down otherwise.
    The longer token [상행] and the whole down test never change it. *)
Theorem direction_group_tokens (s : pystr) :
  direction_group (JStr s)
  = Ok (if contains t_sang s || contains t_inner s then Up else Down).
Proof.
  unfold direction_group. rewrite up_check_str, down_check_str. cbn [bind].
  destruct (contains t_up s) eqn:E.
  - change t_up with (t_sang ++ [54665%N]) in E.
    apply contains_app_l in E. rewrite E. reflexivity.
  - cbn [orb].
    destruct (contains t_inner s), (contains t_sang s); cbn;
      try reflexivity;
      now destruct (contains t_down s || contains t_outer s || contains t_ha s).
Qed.

Lemma group_trains_length data :
  forall up0 down0 up down,
  group_trains data up0 down0 = Ok (up, down) ->
  (List.length up + List.length down
   = List.length up0 + List.length down0 + List.length data)%nat.
Proof.
  induction data as [|train data IH]; intros up0 down0 up down H.
  - cbn in H. injection H as <- <-. cbn. lia.
  - cbn [group_trains] in H.
    destruct (parse_train_info train) as [info|]; cbn [bind] in H;
      [|discriminate H].
    destruct (direction_group (updn_line info)) as [[|]|];
      cbn [bind] in H; [| |discriminate H];
      apply IH in H; rewrite H, length_app; cbn; lia.
Qed.

Lemma group_trains_acc data :
  forall up0 down0 up down,
  group_trains data up0 down0 = Ok (up, down) ->
  exists infos,
    Forall2 (fun train info => parse_train_info train = Ok info) data infos
    /\ up = up0 ++ filter (fun info =>
               match direction_group (updn_line info) with
               | Ok Up => true
               | _ => false
               end) infos
    /\ down = down0 ++ filter (fun info =>
                 match direction_group (updn_line info) with
                 | Ok Down => true
                 | _ => false
                 end) infos.
Proof.
  induction data as [|train data IH]; intros up0 down0 up down H.
  - cbn in H. injection H as <- <-. exists []. rewrite !app_nil_r.
    repeat split. constructor.
  - cbn [group_trains] in H.
    destruct (parse_train_info train) as [info|] eqn:Ep; cbn [bind] in H;
      [|discriminate H].
    destruct (direction_group (updn_line info)) as [[|]|] eqn:Eg;
      cbn [bind] in H; [| |discriminate H].
    + destruct (IH _ _ _ _ H) as (infos & HF & -> & ->).
      exists (info :: infos). split; [now constructor|].
      cbn [filter]. rewrite Eg. rewrite <- app_assoc. split; reflexivity.
    + destruct (IH _ _ _ _ H) as (infos & HF & -> & ->).
      exists (info :: infos). split; [now constructor|].
      cbn [filter]. rewrite Eg. rewrite <- app_assoc. split; reflexivity.
Qed.

(** X11.  When the grouping loop finishes, the up list and the down list
    are the normalised records of the feed, each in feed order, split by
    the direction test: every record is on exactly one tab. *)
Theorem group_trains_partition (data : list json)
    (up down : list train_info) :
  group_trains data [] [] = Ok (up, down) ->
  exists infos,
    Forall2 (fun train info => parse_train_info train = Ok info) data infos
    /\ up = filter (fun info =>
               match direction_group (updn_line info) with
               | Ok Up => true
               | _ => false
               end) infos
    /\ down = filter (fun info =>
                 match direction_group (updn_line info) with
                 | Ok Down => true
                 | _ => false
                 end) infos
    /\ (List.length up + List.length down = List.length data)%nat.
Proof.
  intros H. destruct (group_trains_acc _ _ _ H) as (infos & HF & Hu & Hd).
  cbn [app] in Hu, Hd. exists infos. repeat split; try assumption.
  apply group_trains_length in H. exact H.
Qed.

Lemma parse_record_str d m2 m3 :
  get d k_arvlMsg2 (JStr []) = JStr m2 ->
  get d k_arvlMsg3 (JStr []) = JStr m3 ->
  exists info,
    parse_train_info (JObj d) = Ok info
    /\ updn_line info = get d k_updnLine (JStr []).
Proof.
  intros H2 H3. unfold parse_train_info, parse_record. rewrite H2, H3.
  cbn [strip_method bind]. eexists. split; reflexivity.
Qed.

Lemma direction_group_str s : exists g, direction_group (JStr s) = Ok g.
Proof.
  unfold direction_group. rewrite up_check_str, down_check_str. cbn [bind].
  destruct (contains t_up s || contains t_inner s || contains t_sang s);
    [now exists Up|].
  destruct (contains t_down s || contains t_outer s || contains t_ha s);
    now exists Down.
Qed.

Lemma group_trains_total data :
  Forall (fun train =>
            exists d m2 m3 u,
              train = JObj d
              /\ get d k_arvlMsg2 (JStr []) = JStr m2
              /\ get d k_arvlMsg3 (JStr []) = JStr m3
              /\ get d k_updnLine (JStr []) = JStr u) data ->
  forall up0 down0,
  exists up down, group_trains data up0 down0 = Ok (up, down).
Proof.
  induction 1 as [|train data (d & m2 & m3 & u & -> & H2 & H3 & Hu) _ IH];
    intros up0 down0.
  - now exists up0, down0.
  - cbn [group_trains].
    destruct (parse_record_str _ H2 H3) as (info & -> & Hupdn).
    cbn [bind]. rewrite Hupdn, Hu.
    destruct (direction_group_str u) as [[|] ->]; cbn [bind]; apply IH.
Qed.

(** X12.  For a non-empty feed of records whose seconds field is a string
    or an [int], and whose two message fields and direction code are
    strings (or the fields are absent), the page raises nothing and
    makes no [st.error] or [st.warning] call: it shows the two tabs, and
    the cards on them are as many as the records. *)
Theorem well_formed_feed_shows_tabs (data : list json) :
  data <> [] ->
  Forall (fun train =>
            exists d m2 m3 u,
              train = JObj d
              /\ ((exists b, get d k_barvlDt (JStr s_zero) = JStr b)
                  \/ (exists z, get d k_barvlDt (JStr s_zero) = JInt z))
              /\ get d k_arvlMsg2 (JStr []) = JStr m2
              /\ get d k_arvlMsg3 (JStr []) = JStr m3
              /\ get d k_updnLine (JStr []) = JStr u) data ->
  exists down up,
    show_arrivals (Some (JArr data)) = Ok ([], Some (Tabs down up))
    /\ (List.length down + List.length up = List.length data)%nat.
Proof.
  intros Hne Hwf0.
  assert (Hwf : Forall (fun train =>
            exists d m2 m3 u,
              train = JObj d
              /\ get d k_arvlMsg2 (JStr []) = JStr m2
              /\ get d k_arvlMsg3 (JStr []) = JStr m3
              /\ get d k_updnLine (JStr []) = JStr u) data).
  { eapply Forall_impl; [|exact Hwf0].
    intros train (d & m2 & m3 & u & E & _ & H2 & H3 & Hu).
    now exists d, m2, m3, u. }
  destruct (group_trains_total Hwf [] []) as (up & down & Hg).
  exists down, up. split.
  - unfold show_arrivals. destruct data; [congruence|].
    cbn [iter bind]. rewrite Hg. reflexivity.
  - apply group_trains_length in Hg. cbn in Hg. lia.
Qed.

(** X13.  A record that normalises (seconds field a string or an [int],
    message fields strings, or absent) and whose direction code is [null],
    a boolean or an [int] makes the membership test of the grouping loop
    raise [TypeError]; the loop stops there, before any later record. *)
Theorem scalar_direction_raises (d : dict) (m2 m3 : pystr) (rest : list json)
    (up0 down0 : list train_info) :
  (exists b, get d k_barvlDt (JStr s_zero) = JStr b)
  \/ (exists z, get d k_barvlDt (JStr s_zero) = JInt z) ->
  get d k_arvlMsg2 (JStr []) = JStr m2 ->
  get d k_arvlMsg3 (JStr []) = JStr m3 ->
  get d k_updnLine (JStr []) = JNull
  \/ (exists b, get d k_updnLine (JStr []) = JBool b)
  \/ (exists z, get d k_updnLine (JStr []) = JInt z) ->
  group_trains (JObj d :: rest) up0 down0 = Raise TypeError.
Proof.
  intros _ H2 H3 Hu. cbn [group_trains].
  destruct (parse_record_str _ H2 H3) as (info & -> & Hupdn).
  cbn [bind]. rewrite Hupdn.
  destruct Hu as [->|[[b ->]|[z ->]]]; reflexivity.
Qed.

(** X14.  A non-empty string under the arrival key passes the fetch as it
    is, and the page then raises [AttributeError]: the loop visits its
    characters, which have no [get]. *)
Theorem string_payload_raises (API_KEY : pystr) (d : dict) (c : codepoint)
    (s : pystr) :
  API_KEY <> [] ->
  check_error_message (JObj d) = Ok None ->
  lookup d k_realtimeArrivalList = Some (JStr (c :: s)) ->
  fetch_subway_data API_KEY (Json (JObj d)) = ([], Some (JStr (c :: s)))
  /\ run API_KEY (Json (JObj d)) = Raise AttributeError.
Proof.
  intros Hk He Hc.
  assert (Hf : fetch_subway_data API_KEY (Json (JObj d))
               = ([], Some (JStr (c :: s)))).
  { unfold fetch_subway_data, classify_response.
    destruct API_KEY; [congruence|]. cbn [is_empty].
    rewrite He. cbn [bind]. rewrite (select_payload_current _ Hc).
    unfold list_or_empty. cbn [truthy is_empty negb len bind].
    rewrite length_cons. rewrite Nat2Z.inj_succ.
    replace (Z.succ (Z.of_nat (List.length s)) >? 0)%Z with true;
      [reflexivity|].
    symmetry. apply Z.gtb_lt. lia. }
  split; [exact Hf|]. unfold run. rewrite Hf. reflexivity.
Qed.

End Tabs.

Lemma group_trains_partition_witness :
  exists infos,
    Forall2 (fun train info =>
               @parse_train_info Reference.builtins train = Ok info)
      [example_train] infos
    /\ List.length infos = 1%nat.
Proof.
  destruct (@group_trains_partition Reference.builtins [example_train]
              _ _ eq_refl) as (infos & HF & _).
  exists infos. split; [exact HF|].
  symmetry. exact (Forall2_length HF).
Defined.

Lemma well_formed_feed_shows_tabs_witness :
  exists down up,
    @show_arrivals Reference.builtins (Some (JArr [example_train]))
    = Ok ([], Some (Tabs down up))
    /\ (List.length down + List.length up = 1)%nat.
Proof.
  apply (@well_formed_feed_shows_tabs Reference.builtins [example_train]).
  - discriminate.
  - constructor; [|constructor]. unfold example_train.
    eexists. exists [], [], t_up. split; [reflexivity|].
    split; [left; exists (utf8 "125"); reflexivity|].
    repeat split.
Defined.

Lemma scalar_direction_raises_witness :
  @group_trains Reference.builtins
    [JObj [(k_updnLine, JNull)]; example_train] [] []
  = Raise TypeError.
Proof.
  apply (@scalar_direction_raises Reference.builtins
           [(k_updnLine, JNull)] [] [] [example_train] [] []).
  - left. exists s_zero. reflexivity.
  - reflexivity.
  - reflexivity.
  - left. reflexivity.
Defined.

Lemma string_payload_raises_witness :
  @run Reference.builtins Request.hard_coded_key
    (Json (JObj [(k_realtimeArrivalList, JStr (utf8 "none"))]))
  = Raise AttributeError.
Proof.
  apply (@string_payload_raises Reference.builtins Request.hard_coded_key
           [(k_realtimeArrivalList, JStr (utf8 "none"))]
           110%N (utf8 "one")).
  - discriminate.
  - reflexivity.
  - reflexivity.
Defined.

(** ** More on the normaliser *)

Section NormaliserFacts.
Context {builtins : Builtins}.

Lemma starts_with_app_r w s b :
  starts_with w s = true -> starts_with w (s ++ b) = true.
Proof.
  revert s. induction w as [|a w IH]; intros s H; [reflexivity|].
  destruct s as [|c s]; [discriminate H|].
  cbn in H |- *. apply andb_true_iff in H. destruct H as [H1 H2].
  rewrite H1. cbn. now apply IH.
Qed.

Lemma contains_app_r w s b :
  contains w s = true -> contains w (s ++ b) = true.
Proof.
  induction s as [|c s IH]; intros H.
  - cbn in H. rewrite orb_false_r in H. destruct w; [|discriminate H].
    destruct b; reflexivity.
  - cbn [contains app] in H |- *. apply orb_true_iff in H.
    apply orb_true_iff. destruct H as [H|H].
    + left. now apply (starts_with_app_r _ (c :: s)).
    + right. now apply IH.
Qed.

Lemma contains_app_pre w a s :
  contains w s = true -> contains w (a ++ s) = true.
Proof.
  intros H. induction a as [|c a IH]; [exact H|].
  change (contains w ((c :: a) ++ s))
    with (starts_with w (c :: a ++ s) || contains w (a ++ s)).
  rewrite IH. apply orb_true_r.
Qed.

(** A word that occurs in a part of a text occurs in the text. *)
Lemma contains_inside w a g b :
  contains w g = true -> contains w (a ++ g ++ b) = true.
Proof.
  intros H. apply contains_app_pre. now apply contains_app_r.
Qed.

Lemma has_garbage_inside a g b :
  has_garbage (a ++ g ++ b) = false -> has_garbage g = false.
Proof.
  unfold has_garbage. intros H.
  repeat (apply orb_false_iff in H; destruct H as [H ?]).
  repeat (apply orb_false_iff; split);
    match goal with
    | |- contains ?w g = false =>
      destruct (contains w g) eqn:E; [|reflexivity];
      apply (@contains_inside w a g b) in E; congruence
    end.
Qed.

Lemma hangul_run_split s run rest :
  hangul_run s = (run, rest) -> s = run ++ rest.
Proof.
  revert run rest. induction s as [|c s IH]; intros run rest H.
  - cbn in H. now injection H as <- <-.
  - cbn in H. destruct (is_hangul c).
    + destruct (hangul_run s) as [r1 r2]. injection H as <- <-.
      cbn. f_equal. now apply IH.
    + now injection H as <- <-.
Qed.

(** The group found by the search is a part of the text. *)
Lemma re_search_paren_inside s g :
  re_search_paren s = Some g -> exists a b, s = a ++ g ++ b.
Proof.
  induction s as [|c s IH]; intros H; [discriminate H|].
  cbn [re_search_paren] in H.
  assert (Hrec : re_search_paren s = Some g -> exists a b, c :: s = a ++ g ++ b).
  { intros H'. destruct (IH H') as (a & b & ->). now exists (c :: a), b. }
  destruct (c =? 40)%N; [|now apply Hrec].
  destruct (hangul_run s) as [run rest] eqn:E.
  destruct (negb (is_empty run) && starts_with [41%N] rest);
    [|now apply Hrec].
  injection H as <-. apply hangul_run_split in E.
  exists [c], rest. now rewrite E.
Qed.

Lemma has_garbage_any_in s : has_garbage s = any_in invalid_words s.
Proof.
  unfold has_garbage, any_in, invalid_words. cbn [existsb].
  rewrite orb_false_r, !orb_assoc. reflexivity.
Qed.

(** A text the classifier accepts holds no denylisted word. *)
Lemma valid_text_clean text :
  is_valid_station_text text = true -> has_garbage text = false.
Proof.
  unfold is_valid_station_text.
  destruct (is_empty text || (List.length text =? 0)%nat); [discriminate|].
  destruct (any_in invalid_words_classifier text) eqn:E; [discriminate|].
  intros _. unfold any_in, invalid_words_classifier in E. cbn [existsb] in E.
  repeat (apply orb_false_iff in E; destruct E as [? E]).
  unfold has_garbage.
  repeat (apply orb_false_iff; split); assumption.
Qed.

Lemma valid_text_nonempty text :
  is_valid_station_text text = true -> text <> [].
Proof.
  intros H ->. discriminate H.
Qed.

Lemma status_and_time_clean v m z cd :
  (v = true -> has_garbage m = false) ->
  has_garbage (fst (status_and_time v m z (time_str_of z) cd)) = false
  /\ has_garbage (snd (status_and_time v m z (time_str_of z) cd)) = false.
Proof.
  intros Hm. unfold status_and_time.
  assert (Ht : has_garbage (if (z >? 0)%Z then time_str_of z else s_arrived)
               = false).
  { destruct (z >? 0)%Z; [apply time_str_of_clean|reflexivity]. }
  destruct v; cbn [andb].
  - specialize (Hm eq_refl).
    destruct (contains s_min m || contains s_sec m || contains s_after m);
      [now split|].
    destruct (contains s_arrived m || contains s_entering_tok m);
      [now split|].
    destruct (contains s_prev_station m); [now split|].
    cbn [fst snd]. split; apply fallback_text_clean.
  - cbn [fst snd]. split; apply fallback_text_clean.
Qed.

Lemma location_of_clean v m2 m3 :
  (v = true -> has_garbage m2 = false) ->
  has_garbage (location_of v m2 m3) = false.
Proof.
  intros Hm. unfold location_of.
  destruct (is_valid_station_text m3) eqn:E3; [now apply valid_text_clean|].
  destruct v; cbn [andb]; [|reflexivity].
  specialize (Hm eq_refl).
  destruct (negb (contains s_min m2 || contains s_sec m2)); [|reflexivity].
  destruct (re_search_paren m2) as [g|] eqn:Eg.
  - destruct (re_search_paren_inside _ Eg) as (a & b & E).
    rewrite E in Hm. exact (has_garbage_inside _ _ _ Hm).
  - destruct ((List.length m2 <=? 4)%nat && is_valid_station_text m2);
      [exact Hm|reflexivity].
Qed.

Lemma scrubbed_valid_clean m :
  (if negb (is_empty (if any_in invalid_words m then [] else m))
   then is_valid_station_text (if any_in invalid_words m then [] else m)
   else false) = true ->
  has_garbage (if any_in invalid_words m then [] else m) = false.
Proof.
  destruct (any_in invalid_words m) eqn:E; [reflexivity|].
  intros _. now rewrite has_garbage_any_in.
Qed.

(** The fields of the result, with the final filtering resolved. *)
Lemma parse_result_fields (d : dict) (m2 m3 : pystr)
    (info : train_info) :
  get d k_arvlMsg2 (JStr []) = JStr m2 ->
  get d k_arvlMsg3 (JStr []) = JStr m3 ->
  parse_train_info (JObj d) = Ok info ->
  let arvl_msg2 :=
    if any_in invalid_words (strip m2) then [] else strip m2 in
  let arvl_msg3 :=
    if any_in invalid_words (strip m3) then [] else strip m3 in
  let is_valid_msg2 :=
    if negb (is_empty arvl_msg2) then is_valid_station_text arvl_msg2
    else false in
  let barvl_seconds := barvl_seconds_of (get d k_barvlDt (JStr s_zero)) in
  let chosen :=
    status_and_time is_valid_msg2 arvl_msg2 barvl_seconds
      (time_str_of barvl_seconds) (get d k_arvlCd (JStr [])) in
  let current_location := location_of is_valid_msg2 arvl_msg2 arvl_msg3 in
  status info = fst chosen
  /\ time info = snd chosen
  /\ current info
     = (if negb (is_empty current_location) then current_location
        else s_unknown).
Proof.
  intros H2 H3 Hp. cbv zeta.
  pose proof (scrubbed_valid_clean (strip m2)) as Hv.
  unfold parse_train_info, parse_record in Hp. rewrite H2, H3 in Hp.
  cbn [strip_method bind] in Hp.
  match type of Hp with
  | context [status_and_time ?v ?m ?z ?ts ?cd] =>
    destruct (@status_and_time_clean v m z cd Hv) as [Hs Ht]
  end.
  match type of Hp with
  | context [location_of ?v ?a2 ?a3] =>
    pose proof (@location_of_clean v a2 a3 Hv) as Hl
  end.
  rewrite Hs, Ht, Hl in Hp.
  apply (f_equal (fun r => match r with Ok i => Some i | Raise _ => None end))
    in Hp.
  cbv beta iota in Hp. assert (E := Hp). clear Hp.
  apply (f_equal (fun o => match o with Some i => i | None => info end)) in E.
  cbv beta iota in E. subst info. cbv beta iota delta [status time current].
  repeat split.
Qed.

(** X15.  The final filtering of [parse_train_info] never changes
    anything: the status, the display time and the location chosen before
    it already hold no denylisted word, so the result is made of them as
    they are. *)
Theorem final_filtering_is_identity (d : dict) (m2 m3 : pystr)
    (info : train_info) :
  get d k_arvlMsg2 (JStr []) = JStr m2 ->
  get d k_arvlMsg3 (JStr []) = JStr m3 ->
  parse_train_info (JObj d) = Ok info ->
  let arvl_msg2 :=
    if any_in invalid_words (strip m2) then [] else strip m2 in
  let arvl_msg3 :=
    if any_in invalid_words (strip m3) then [] else strip m3 in
  let is_valid_msg2 :=
    if negb (is_empty arvl_msg2) then is_valid_station_text arvl_msg2
    else false in
  let barvl_seconds := barvl_seconds_of (get d k_barvlDt (JStr s_zero)) in
  let chosen :=
    status_and_time is_valid_msg2 arvl_msg2 barvl_seconds
      (time_str_of barvl_seconds) (get d k_arvlCd (JStr [])) in
  let current_location := location_of is_valid_msg2 arvl_msg2 arvl_msg3 in
  status info = fst chosen
  /\ time info = snd chosen
  /\ current info
     = (if negb (is_empty current_location) then current_location
        else s_unknown).
Proof.
  exact (@parse_result_fields d m2 m3 info).
Qed.

Lemma unusable_scrubbed m :
  is_valid_station_text m = false ->
  (if negb (is_empty (if any_in invalid_words m then [] else m))
   then is_valid_station_text (if any_in invalid_words m then [] else m)
   else false) = false.
Proof.
  intros H. destruct (any_in invalid_words m); [reflexivity|].
  rewrite H. now destruct (negb (is_empty m)).
Qed.

Lemma usable_scrubbed m :
  is_valid_station_text m = true ->
  (if any_in invalid_words m then [] else m) = m
  /\ (if negb (is_empty (if any_in invalid_words m then [] else m))
      then is_valid_station_text (if any_in invalid_words m then [] else m)
      else false) = true.
Proof.
  intros H. pose proof (valid_text_clean _ H) as Hc.
  rewrite has_garbage_any_in in Hc. rewrite Hc. split; [reflexivity|].
  rewrite H. destruct m; [discriminate H|reflexivity].
Qed.

(** Resolves the scrubbing and the validity test inside the chosen status
    once the classifier's verdict on the stripped message is known. *)
Ltac resolve_verdict Hv :=
  match goal with
  | |- context [status_and_time ?v ?m _ _ _] =>
    first
      [ let Ev := fresh "Ev" in
        assert (Ev : v = false) by exact (unusable_scrubbed _ Hv);
        rewrite Ev; clear Ev
      | let Ev := fresh "Ev" in
        let Em := fresh "Em" in
        assert (Ev : v = true) by exact (proj2 (usable_scrubbed _ Hv));
        rewrite Ev; clear Ev;
        assert (Em : m = strip _) by exact (proj1 (usable_scrubbed _ Hv));
        rewrite Em; clear Em ]
  end.

(** X16.  When the classifier rejects the stripped [arvlMsg2] (empty or
    blank, garbage, or no known shape), the message is not shown: status
    and display time are both the time string if the seconds are positive,
    and otherwise both [진입중] if the arrival code is ["1"] and both [도착]
    if it is anything else. *)
Theorem unusable_message_falls_back (d : dict) (m2 m3 : pystr)
    (info : train_info) :
  get d k_arvlMsg2 (JStr []) = JStr m2 ->
  get d k_arvlMsg3 (JStr []) = JStr m3 ->
  parse_train_info (JObj d) = Ok info ->
  is_valid_station_text (strip m2) = false ->
  let barvl_seconds := barvl_seconds_of (get d k_barvlDt (JStr s_zero)) in
  let arvl_cd := get d k_arvlCd (JStr []) in
  ((0 < barvl_seconds)%Z ->
     status info = time_str_of barvl_seconds
     /\ time info = time_str_of barvl_seconds)
  /\ ((barvl_seconds <= 0)%Z -> arvl_cd = JStr (utf8 "1") ->
      status info = utf8 "진입중" /\ time info = utf8 "진입중")
  /\ ((barvl_seconds <= 0)%Z -> arvl_cd <> JStr (utf8 "1") ->
      status info = utf8 "도착" /\ time info = utf8 "도착").
Proof.
  intros H2 H3 Hp Hv. cbv zeta.
  destruct (parse_result_fields _ H2 H3 Hp) as (Hs & Ht & _).
  rewrite Hs, Ht. resolve_verdict Hv.
  rewrite status_and_time_invalid. cbn [fst snd].
  destruct (fallback_text_values
              (barvl_seconds_of (get d k_barvlDt (JStr s_zero)))
              (time_str_of (barvl_seconds_of (get d k_barvlDt (JStr s_zero))))
              (get d k_arvlCd (JStr [])))
    as (Hpos & Hone & Hother).
  split; [|split].
  - intros Hz. rewrite (Hpos Hz). split; reflexivity.
  - intros Hz Hcd. rewrite (Hone Hz Hcd). split; reflexivity.
  - intros Hz Hcd. rewrite (Hother Hz Hcd). split; reflexivity.
Qed.

(** X17.  When the classifier accepts the stripped [arvlMsg2] and the
    message holds a time token ([분], [초] or [후]), status and display time
    are the message itself, whatever the seconds field says.  With an
    arrival token ([도착], [진입] or [전역]) instead, the status is the message
    and the display time is computed from the seconds. *)
Theorem usable_message_shown (d : dict) (m2 m3 : pystr) (info : train_info) :
  get d k_arvlMsg2 (JStr []) = JStr m2 ->
  get d k_arvlMsg3 (JStr []) = JStr m3 ->
  parse_train_info (JObj d) = Ok info ->
  is_valid_station_text (strip m2) = true ->
  let msg := strip m2 in
  let barvl_seconds := barvl_seconds_of (get d k_barvlDt (JStr s_zero)) in
  (contains s_min msg || contains s_sec msg || contains s_after msg = true ->
     status info = msg /\ time info = msg)
  /\ (contains s_min msg || contains s_sec msg || contains s_after msg = false ->
      contains s_arrived msg || contains s_entering_tok msg
      || contains s_prev_station msg = true ->
      status info = msg
      /\ time info = (if (barvl_seconds >? 0)%Z then time_str_of barvl_seconds
                      else s_arrived)).
Proof.
  intros H2 H3 Hp Hv. cbv zeta.
  destruct (parse_result_fields _ H2 H3 Hp) as (Hs & Ht & _).
  rewrite Hs, Ht. resolve_verdict Hv.
  unfold status_and_time. cbn [andb]. split.
  - intros ->. split; reflexivity.
  - intros -> Ha.
    destruct (contains s_arrived (strip m2) || contains s_entering_tok (strip m2));
      [split; reflexivity|].
    cbn [orb] in Ha. rewrite Ha. split; reflexivity.
Qed.

(** X18.  The normaliser invents no text: the status is the stripped
    [arvlMsg2] (and then the classifier accepts it), the computed time
    string, or one of the two constants [도착] and [진입중]; so is the
    display time. *)
Theorem status_provenance (d : dict) (m2 m3 : pystr) (info : train_info) :
  get d k_arvlMsg2 (JStr []) = JStr m2 ->
  get d k_arvlMsg3 (JStr []) = JStr m3 ->
  parse_train_info (JObj d) = Ok info ->
  let barvl_seconds := barvl_seconds_of (get d k_barvlDt (JStr s_zero)) in
  let allowed (s : pystr) :=
    (s = strip m2 /\ is_valid_station_text (strip m2) = true)
    \/ s = time_str_of barvl_seconds \/ s = s_arrived \/ s = s_entering in
  allowed (status info) /\ allowed (time info).
Proof.
  intros H2 H3 Hp. cbv zeta.
  destruct (parse_result_fields _ H2 H3 Hp) as (Hs & Ht & _).
  rewrite Hs, Ht. clear Hs Ht Hp.
  assert (Hfb : forall z cd,
            let s := fallback_text z (time_str_of z) cd in
            s = time_str_of z \/ s = s_arrived \/ s = s_entering).
  { intros z cd. unfold fallback_text. cbv zeta.
    destruct (z >? 0)%Z; [now left|].
    destruct (eq_str cd s_zero); [right; now left|].
    destruct (eq_str cd s_one); [right; now right|right; now left]. }
  destruct (is_valid_station_text (strip m2)) eqn:Hv.
  - resolve_verdict Hv.
    unfold status_and_time. cbn [andb].
    assert (Ht : forall z : Z,
              (if (z >? 0)%Z then time_str_of z else s_arrived) = time_str_of z
              \/ (if (z >? 0)%Z then time_str_of z else s_arrived) = s_arrived).
    { intros z. destruct (z >? 0)%Z; [now left|now right]. }
    destruct (contains s_min (strip m2) || contains s_sec (strip m2)
              || contains s_after (strip m2)).
    { cbn [fst snd]. split; left; now split. }
    destruct (contains s_arrived (strip m2)
              || contains s_entering_tok (strip m2)).
    { cbn [fst snd]. split; [left; now split|].
      right. destruct (Ht (barvl_seconds_of (get d k_barvlDt (JStr s_zero))))
        as [-> | ->]; [now left|right; now left]. }
    destruct (contains s_prev_station (strip m2)).
    { cbn [fst snd]. split; [left; now split|].
      right. destruct (Ht (barvl_seconds_of (get d k_barvlDt (JStr s_zero))))
        as [-> | ->]; [now left|right; now left]. }
    cbn [fst snd]. split; right; apply Hfb.
  - resolve_verdict Hv. rewrite status_and_time_invalid.
    cbn [fst snd]. split; right; apply Hfb.
Qed.

(** X19.  No denylisted word reaches the location line of the card. *)
Theorem location_never_garbage (train_data : json) (info : train_info) :
  parse_train_info train_data = Ok info ->
  forall w, In w invalid_words -> contains w (current info) = false.
Proof.
  intros Hp w Hw.
  destruct (parse_train_info_ok_inv _ Hp) as (d & m2 & m3 & -> & H2 & H3).
  destruct (parse_result_fields _ H2 H3 Hp) as (_ & _ & Hc).
  apply has_garbage_words; [|exact Hw]. rewrite Hc.
  match goal with
  | |- context [location_of ?v ?a2 ?a3] =>
    pose proof (@location_of_clean v a2 a3 (scrubbed_valid_clean (strip m2)))
      as Hl;
    destruct (location_of v a2 a3); [reflexivity|exact Hl]
  end.
Qed.

End NormaliserFacts.

Lemma display_fields_nonempty_witness :
  exists info,
    @parse_train_info Reference.builtins example_train = Ok info
    /\ status info <> [] /\ time info <> [] /\ current info <> [].
Proof.
  eexists. split; [reflexivity|].
  destruct (@display_fields_nonempty Reference.builtins example_train _
              eq_refl) as (Hs & Ht & Hc & _).
  repeat split; assumption.
Defined.

Lemma final_filtering_is_identity_witness :
  exists info,
    @parse_train_info Reference.builtins
      (JObj [(k_arvlMsg2, JStr (utf8 " [2]번째 전역 (구파발) "))]) = Ok info
    /\ status info = utf8 "[2]번째 전역 (구파발)"
    /\ time info = utf8 "도착"
    /\ current info = utf8 "구파발".
Proof.
  eexists. split; [reflexivity|].
  exact (@final_filtering_is_identity Reference.builtins
           [(k_arvlMsg2, JStr (utf8 " [2]번째 전역 (구파발) "))]
           (utf8 " [2]번째 전역 (구파발) ") [] _ eq_refl eq_refl eq_refl).
Defined.

Lemma unusable_message_falls_back_witness :
  (exists info,
     @parse_train_info Reference.builtins
       (JObj [(k_barvlDt, JStr (utf8 "45")); (k_arvlMsg2, JStr (utf8 "   "))])
     = Ok info
     /\ status info = utf8 "45초 후" /\ time info = utf8 "45초 후")
  /\ (exists info,
       @parse_train_info Reference.builtins
         (JObj [(k_barvlDt, JStr (utf8 "0")); (k_arvlCd, JStr (utf8 "1"));
                (k_arvlMsg2, JStr (utf8 "운행중입니다"))])
       = Ok info
       /\ status info = utf8 "진입중" /\ time info = utf8 "진입중")
  /\ (exists info,
       @parse_train_info Reference.builtins
         (JObj [(k_barvlDt, JStr (utf8 "0")); (k_arvlCd, JStr (utf8 "99"))])
       = Ok info
       /\ status info = utf8 "도착" /\ time info = utf8 "도착").
Proof.
  split; [|split].
  - eexists. split; [reflexivity|].
    apply (proj1 (@unusable_message_falls_back Reference.builtins
                    [(k_barvlDt, JStr (utf8 "45"));
                     (k_arvlMsg2, JStr (utf8 "   "))]
                    (utf8 "   ") [] _ eq_refl eq_refl eq_refl eq_refl)).
    reflexivity.
  - eexists. split; [reflexivity|].
    apply (proj1 (proj2 (@unusable_message_falls_back Reference.builtins
                           [(k_barvlDt, JStr (utf8 "0"));
                            (k_arvlCd, JStr (utf8 "1"));
                            (k_arvlMsg2, JStr (utf8 "운행중입니다"))]
                           (utf8 "운행중입니다") [] _
                           eq_refl eq_refl eq_refl eq_refl))).
    + discriminate.
    + reflexivity.
  - eexists. split; [reflexivity|].
    apply (proj2 (proj2 (@unusable_message_falls_back Reference.builtins
                           [(k_barvlDt, JStr (utf8 "0"));
                            (k_arvlCd, JStr (utf8 "99"))]
                           [] [] _ eq_refl eq_refl eq_refl eq_refl))).
    + discriminate.
    + discriminate.
Defined.

Lemma usable_message_shown_witness :
  exists info,
    @parse_train_info Reference.builtins
      (JObj [(k_barvlDt, JStr (utf8 "45")); (k_arvlMsg2, JStr (utf8 "3분 후"))])
    = Ok info
    /\ status info = utf8 "3분 후" /\ time info = utf8 "3분 후".
Proof.
  eexists. split; [reflexivity|].
  exact (proj1 (@usable_message_shown Reference.builtins
                  [(k_barvlDt, JStr (utf8 "45"));
                   (k_arvlMsg2, JStr (utf8 "3분 후"))]
                  (utf8 "3분 후") [] _ eq_refl eq_refl eq_refl eq_refl)
           eq_refl).
Defined.

Lemma status_provenance_witness :
  exists info,
    @parse_train_info Reference.builtins
      (JObj [(k_arvlCd, JStr (utf8 "1"))]) = Ok info
    /\ ((status info = [] /\ is_valid_station_text [] = true)
        \/ status info = time_str_of 0
        \/ status info = s_arrived
        \/ status info = s_entering).
Proof.
  eexists. split; [reflexivity|].
  exact (proj1 (@status_provenance Reference.builtins
                  [(k_arvlCd, JStr (utf8 "1"))] [] [] _
                  eq_refl eq_refl eq_refl)).
Defined.

Lemma location_never_garbage_witness :
  exists info,
    @parse_train_info Reference.builtins
      (JObj [(k_arvlMsg3, JStr (utf8 "접수역"))]) = Ok info
    /\ contains w_receipt (current info) = false.
Proof.
  eexists. split; [reflexivity|].
  apply (@location_never_garbage Reference.builtins
           (JObj [(k_arvlMsg3, JStr (utf8 "접수역"))]) _ eq_refl).
  simpl. left. reflexivity.
Defined.

(** ** More on the line-code resolver *)

Section ResolverFacts.
Context {builtins : Builtins}.

Lemma lookup_in_values (V : Type) (d : list (pystr * V)) k v :
  lookup d k = Some v -> In v (map snd d).
Proof.
  induction d as [|[k' v'] d IH]; [discriminate|].
  cbn [lookup map snd]. destruct (str_eqb k' k).
  - intros E. injection E as ->. now left.
  - intros E. right. now apply IH.
Qed.

Lemma suffixed_not_unknown s : s ++ s_line_suffix <> s_unknown.
Proof.
  destruct s as [|? [|? [|? [|? [|? [|? [|? ?]]]]]]]; discriminate.
Qed.

(** X20.  The line name of a card is never empty, whatever the line id is
    (any JSON value, known or not). *)
Theorem line_name_never_empty (subway_id : json) :
  get_subway_line_name subway_id <> [].
Proof.
  unfold get_subway_line_name, get.
  destruct (lookup subway_line_map
              (if truthy subway_id then str subway_id else [])) as [name|] eqn:E.
  - apply lookup_in_values in E. intros ->. revert E. vm_compute.
    intuition discriminate.
  - destruct (if truthy subway_id then str subway_id else []);
      [discriminate|]. cbn [is_empty negb app]. discriminate.
Qed.

(** X21.  A line id sent as a number resolves exactly as the same id sent
    as a string of digits. *)
Theorem int_id_resolves_as_string (z : Z) :
  z <> 0%Z ->
  get_subway_line_name (JInt z) = get_subway_line_name (JStr (str_of_int z)).
Proof.
  intros Hz. unfold get_subway_line_name. cbn [truthy str].
  replace (z =? 0)%Z with false by (symmetry; now apply Z.eqb_neq).
  pose proof (str_of_int_nonempty z) as Hn.
  destruct (str_of_int z); [congruence|]. reflexivity.
Qed.

(** X22.  For an id that is [null], a boolean, a number or a string, the
    unknown label is shown exactly when the id is falsy ([null], [false],
    [0] or the empty string); no other id resolves to it. *)
Theorem unknown_only_for_falsy_id (subway_id : json) :
  (forall l, subway_id <> JArr l) ->
  (forall d, subway_id <> JObj d) ->
  (get_subway_line_name subway_id = s_unknown <-> truthy subway_id = false).
Proof.
  intros Hl Hd. unfold get_subway_line_name. split.
  - destruct (truthy subway_id) eqn:Ht; [|reflexivity].
    intros E. exfalso.
    assert (Hs : str subway_id <> []).
    { destruct subway_id as [|b|z|s|l|d]; cbn in Ht |- *;
        try discriminate.
      - now destruct b.
      - apply str_of_int_nonempty.
      - now destruct s.
      - now destruct (Hl l).
      - now destruct (Hd d). }
    unfold get in E.
    destruct (lookup subway_line_map (str subway_id)) as [name|] eqn:El.
    + apply lookup_in_values in El. subst name. revert El. vm_compute.
      intuition discriminate.
    + destruct (str subway_id) as [|c s] eqn:Es; [congruence|].
      cbn [is_empty negb] in E. exact (suffixed_not_unknown _ E).
  - intros ->. reflexivity.
Qed.

End ResolverFacts.

Lemma int_id_resolves_as_string_witness :
  @get_subway_line_name Reference.builtins (JInt 1002) = utf8 "2호선".
Proof.
  rewrite (@int_id_resolves_as_string Reference.builtins 1002%Z).
  - reflexivity.
  - discriminate.
Defined.

Lemma unknown_only_for_falsy_id_witness :
  @get_subway_line_name Reference.builtins JNull = s_unknown.
Proof.
  apply (@unknown_only_for_falsy_id Reference.builtins JNull).
  - discriminate.
  - discriminate.
  - reflexivity.
Defined.

(** ** More on the classifier *)

Section ClassifierFacts.

Lemma classifier_denylist text :
  any_in invalid_words_classifier text = has_garbage text.
Proof.
  unfold any_in, invalid_words_classifier, has_garbage. cbn [existsb].
  destruct (contains w_global_import text) eqn:E.
  - change w_global_import with (w_global ++ [32%N; 49688%N; 51077%N]) in E.
    apply contains_app_l in E. rewrite E.
    destruct (contains w_receipt text); reflexivity.
  - rewrite !orb_false_r, !orb_assoc. reflexivity.
Qed.

(** X23.  The three denylist tests of the module (the five-word list of the
    classifier, the four-word list of the normaliser and the chain of the
    final filtering) agree on every text: the fifth word of the classifier
    adds nothing. *)
Theorem denylist_tests_agree (text : pystr) :
  any_in invalid_words_classifier text = any_in invalid_words text
  /\ has_garbage text = any_in invalid_words text.
Proof.
  rewrite classifier_denylist, has_garbage_any_in. split; reflexivity.
Qed.

Lemma is_space_bound c : is_space c = true -> (c <= 12288)%N.
Proof.
  unfold is_space.
  rewrite !orb_true_iff, !andb_true_iff, !N.leb_le, !N.eqb_eq. lia.
Qed.

Lemma hangul_not_space c : is_hangul c = true -> is_space c = false.
Proof.
  intros H. destruct (is_space c) eqn:E; [|reflexivity].
  apply is_space_bound in E. unfold is_hangul in H.
  rewrite andb_true_iff, !N.leb_le in H. lia.
Qed.

Lemma lstrip_hangul_head c s :
  is_hangul c = true -> lstrip (c :: s) = c :: s.
Proof.
  intros H. cbn. now rewrite (hangul_not_space _ H).
Qed.

Lemma strip_hangul text :
  Forall (fun c => is_hangul c = true) text -> strip text = text.
Proof.
  intros H. unfold strip.
  assert (Hl : forall t, Forall (fun c => is_hangul c = true) t ->
                         lstrip t = t).
  { intros t Ht. destruct Ht as [|c t Hc _]; [reflexivity|].
    now apply lstrip_hangul_head. }
  rewrite (Hl _ H). rewrite Hl; [apply rev_involutive|].
  apply Forall_rev. exact H.
Qed.

Lemma hangul_run_all text :
  Forall (fun c => is_hangul c = true) text -> hangul_run text = (text, []).
Proof.
  induction 1 as [|c t Hc _ IH]; [reflexivity|].
  cbn. now rewrite Hc, IH.
Qed.

(** X24.  A bare station name is accepted: a text of two to four Hangul
    syllables in which no denylisted word occurs is valid, with or without
    an allowlisted keyword in it. *)
Theorem bare_station_name_valid (text : pystr) :
  Forall (fun c => is_hangul c = true) text ->
  (2 <= List.length text <= 4)%nat ->
  has_garbage text = false ->
  is_valid_station_text text = true.
Proof.
  intros Hh Hlen Hg. unfold is_valid_station_text.
  destruct text as [|c text]; [cbn in Hlen; lia|].
  cbn [is_empty List.length Nat.eqb orb].
  rewrite classifier_denylist, Hg.
  destruct (any_in valid_keywords (c :: text)); [reflexivity|].
  rewrite (strip_hangul Hh). unfold re_match_station_name.
  rewrite (hangul_run_all Hh). cbn [at_dollar].
  destruct Hlen as [Hlo Hhi].
  apply Nat.leb_le in Hlo. apply Nat.leb_le in Hhi.
  rewrite Hlo, Hhi. reflexivity.
Qed.

End ClassifierFacts.

Lemma bare_station_name_valid_witness :
  any_in valid_keywords (utf8 "구파발") = false
  /\ is_valid_station_text (utf8 "구파발") = true.
Proof.
  split; [reflexivity|].
  apply bare_station_name_valid.
  - repeat constructor.
  - cbn. lia.
  - reflexivity.
Defined.

(** ** More on the time string *)

Section TimeStringFacts.

Lemma uint_chars_inj d1 :
  forall d2, uint_chars d1 = uint_chars d2 -> d1 = d2.
Proof.
  induction d1; intros d2 H; destruct d2; cbn in H;
    try discriminate; try reflexivity;
    injection H as H; f_equal; now apply IHd1.
Qed.

(** [str] of an [int] is one-to-one on the non-negative numbers. *)
Lemma str_of_int_inj a b :
  (0 <= a)%Z -> (0 <= b)%Z -> str_of_int a = str_of_int b -> a = b.
Proof.
  intros Ha Hb H. destruct a as [|p|p], b as [|q|q]; try lia; cbn in H.
  - exfalso. apply (DecimalPos.Unsigned.to_uint_nonzero q).
    apply uint_chars_inj. symmetry. exact H.
  - exfalso. apply (DecimalPos.Unsigned.to_uint_nonzero p).
    apply uint_chars_inj. exact H.
  - f_equal. apply DecimalPos.Unsigned.to_uint_inj.
    now apply uint_chars_inj.
Qed.

(** Two texts that start with digits and go on with a non-digit agree on
    the digits and on the rest. *)
Lemma digits_split d1 :
  forall d2 c1 r1 c2 r2,
  Forall (fun c => is_digit c = true) d1 ->
  Forall (fun c => is_digit c = true) d2 ->
  is_digit c1 = false -> is_digit c2 = false ->
  d1 ++ c1 :: r1 = d2 ++ c2 :: r2 ->
  d1 = d2 /\ c1 :: r1 = c2 :: r2.
Proof.
  induction d1 as [|x d1 IH]; intros d2 c1 r1 c2 r2 H1 H2 N1 N2 E.
  - destruct d2 as [|y d2]; [now split|].
    cbn in E. injection E as -> _. inversion H2; congruence.
  - destruct d2 as [|y d2].
    + cbn in E. injection E as -> _. inversion H1; congruence.
    + cbn in E. injection E as -> E. inversion H1; inversion H2; subst.
      destruct (IH _ _ _ _ _ H4 H8 N1 N2 E) as [-> ->]. now split.
Qed.

(** The three shapes of the time string for positive seconds. *)
Lemma time_str_of_shape z :
  (0 < z)%Z ->
  ((0 < z / 60)%Z /\ (0 < z mod 60)%Z
   /\ time_str_of z
      = str_of_int (z / 60)
        ++ 48516%N :: 32%N
           :: str_of_int (z mod 60) ++ [52488%N; 32%N; 54980%N])
  \/ ((0 < z / 60)%Z /\ (z mod 60 = 0)%Z
      /\ time_str_of z = str_of_int (z / 60) ++ [48516%N; 32%N; 54980%N])
  \/ ((z / 60 = 0)%Z /\ (0 < z mod 60)%Z
      /\ time_str_of z = str_of_int (z mod 60) ++ [52488%N; 32%N; 54980%N]).
Proof.
  intros Hz. unfold time_str_of.
  replace (z >? 0)%Z with true by (symmetry; apply Z.gtb_lt; lia).
  pose proof (Z.div_pos z 60 ltac:(lia) ltac:(lia)) as Hm.
  pose proof (Z.mod_pos_bound z 60 ltac:(lia)) as Hs.
  pose proof (Z.div_mod z 60 ltac:(lia)) as Hdm.
  destruct (z / 60 >? 0)%Z eqn:Em; destruct (z mod 60 >? 0)%Z eqn:Es;
    cbn [andb].
  - left. apply Z.gtb_lt in Em. apply Z.gtb_lt in Es. repeat split; lia.
  - right. left. apply Z.gtb_lt in Em.
    assert (~ (z mod 60 > 0)%Z) by (rewrite Z.gtb_ltb in Es;
      apply Z.ltb_ge in Es; lia).
    repeat split; lia.
  - right. right. apply Z.gtb_lt in Es.
    assert (~ (z / 60 > 0)%Z) by (rewrite Z.gtb_ltb in Em;
      apply Z.ltb_ge in Em; lia).
    repeat split; lia.
  - exfalso. rewrite Z.gtb_ltb in Em, Es.
    apply Z.ltb_ge in Em. apply Z.ltb_ge in Es. lia.
Qed.

Lemma digits_then_not (z : Z) (c : codepoint) (rest : pystr) :
  (0 <= z)%Z -> is_digit c = false -> str_of_int z ++ rest <> [c].
Proof.
  intros Hz Hc E. destruct (str_of_int_head Hz) as (x & t & Hx & Hd).
  rewrite Hx in E. cbn in E. injection E as -> _. congruence.
Qed.

(** X25.  The arrived constant is the time string exactly when the seconds
    are zero or negative. *)
Theorem arrived_iff_not_positive (z : Z) :
  time_str_of z = s_arrived <-> (z <= 0)%Z.
Proof.
  split.
  - intros E. destruct (Z.le_gt_cases z 0) as [H|H]; [exact H|exfalso].
    pose proof (Z.div_pos z 60 ltac:(lia) ltac:(lia)) as Hm.
    pose proof (Z.mod_pos_bound z 60 ltac:(lia)) as Hs.
    destruct (time_str_of_shape H) as [(_ & _ & F)|[(_ & _ & F)|(_ & _ & F)]];
      rewrite F in E;
      match type of E with
      | str_of_int ?n ++ _ = _ =>
        destruct (@str_of_int_head n ltac:(lia)) as (x & t & Hx & Hd);
        rewrite Hx in E; cbn in E; injection E as -> _; discriminate Hd
      end.
  - intros H. unfold time_str_of.
    replace (z >? 0)%Z with false; [reflexivity|].
    symmetry. rewrite Z.gtb_ltb. apply Z.ltb_ge. exact H.
Qed.

(** X26.  Two different positive numbers of seconds never give the same
    time string. *)
Theorem time_str_of_injective (z1 z2 : Z) :
  (0 < z1)%Z -> (0 < z2)%Z ->
  time_str_of z1 = time_str_of z2 -> z1 = z2.
Proof.
  intros H1 H2 E.
  pose proof (Z.div_pos z1 60 ltac:(lia) ltac:(lia)) as Hm1.
  pose proof (Z.mod_pos_bound z1 60 ltac:(lia)) as Hs1.
  pose proof (Z.div_pos z2 60 ltac:(lia) ltac:(lia)) as Hm2.
  pose proof (Z.mod_pos_bound z2 60 ltac:(lia)) as Hs2.
  pose proof (Z.div_mod z1 60 ltac:(lia)) as D1.
  pose proof (Z.div_mod z2 60 ltac:(lia)) as D2.
  pose proof (@str_of_int_digits (z1 / 60) Hm1) as Fm1.
  pose proof (@str_of_int_digits (z2 / 60) Hm2) as Fm2.
  pose proof (@str_of_int_digits (z1 mod 60) (proj1 Hs1)) as Fs1.
  pose proof (@str_of_int_digits (z2 mod 60) (proj1 Hs2)) as Fs2.
  assert (Nmin : is_digit 48516%N = false) by reflexivity.
  assert (Nsec : is_digit 52488%N = false) by reflexivity.
  assert (Nafter : is_digit 54980%N = false) by reflexivity.
  destruct (time_str_of_shape H1) as [(A1 & B1 & F1)|[(A1 & B1 & F1)|(A1 & B1 & F1)]];
    destruct (time_str_of_shape H2) as [(A2 & B2 & F2)|[(A2 & B2 & F2)|(A2 & B2 & F2)]];
    rewrite F1, F2 in E.
  - destruct (digits_split _ _ _ _ Fm1 Fm2 Nmin Nmin E) as [Em Er].
    injection Er as Er.
    destruct (digits_split _ _ _ _ Fs1 Fs2 Nsec Nsec Er) as [Es _].
    apply str_of_int_inj in Em; [|lia|lia].
    apply str_of_int_inj in Es; [|lia|lia]. lia.
  - destruct (digits_split _ _ _ _ Fm1 Fm2 Nmin Nmin E) as [_ Er].
    injection Er as Er. exfalso.
    exact (digits_then_not _ (proj1 Hs1) Nafter Er).
  - destruct (digits_split _ _ _ _ Fm1 Fs2 Nmin Nsec E) as [_ Er].
    discriminate Er.
  - destruct (digits_split _ _ _ _ Fm1 Fm2 Nmin Nmin E) as [_ Er].
    injection Er as Er. exfalso. symmetry in Er.
    exact (digits_then_not _ (proj1 Hs2) Nafter Er).
  - destruct (digits_split _ _ _ _ Fm1 Fm2 Nmin Nmin E) as [Em _].
    apply str_of_int_inj in Em; [|lia|lia]. lia.
  - destruct (digits_split _ _ _ _ Fm1 Fs2 Nmin Nsec E) as [_ Er].
    discriminate Er.
  - destruct (digits_split _ _ _ _ Fs1 Fm2 Nsec Nmin E) as [_ Er].
    discriminate Er.
  - destruct (digits_split _ _ _ _ Fs1 Fm2 Nsec Nmin E) as [_ Er].
    discriminate Er.
  - destruct (digits_split _ _ _ _ Fs1 Fs2 Nsec Nsec E) as [Es _].
    apply str_of_int_inj in Es; [|lia|lia]. lia.
Qed.

End TimeStringFacts.

Lemma time_str_of_injective_witness : (125 = 2 * 60 + 5)%Z.
Proof.
  apply time_str_of_injective; [lia|lia|reflexivity].
Defined.

(** ** The API key and the request URL *)

Section RequestFacts.
Import Request.

Lemma classify_calls_not_key_missing data calls res :
  classify_response data = Ok (calls, res) ->
  calls <> [error_api_key_missing].
Proof.
  unfold classify_response.
  destruct (check_error_message data) as [[r|]|e] eqn:E; cbn [bind];
    [| |discriminate].
  - destruct (check_error_message_early _ E) as [m ->].
    intros H. injection H as <- <-. discriminate.
  - unfold select_payload.
    destruct (contains_str k_realtimeArrivalList data) as [[|]|]; cbn [bind];
      try discriminate.
    { destruct (getitem data k_realtimeArrivalList) as [a|]; cbn [bind];
        [|discriminate].
      destruct (list_or_empty a) as [r|]; cbn [bind]; [|discriminate].
      intros H. injection H as <- <-. discriminate. }
    destruct (contains_str k_realtimeStationArrival data) as [[|]|];
      cbn [bind]; try discriminate.
    { destruct (getitem data k_realtimeStationArrival) as [a|]; cbn [bind];
        [|discriminate].
      destruct (list_or_empty a) as [r|]; cbn [bind]; [|discriminate].
      intros H. injection H as <- <-. discriminate. }
    destruct data; intros H; injection H as <- <-; discriminate.
Qed.

(** X27.  The fetch reports a missing API key exactly when the secrets hold
    an [API_KEY] entry that is empty; with no secrets, or no such entry,
    the built-in key is used and that message never appears. *)
Theorem key_missing_iff_empty_secret (secrets : option (list (pystr * pystr)))
    (resp : response) :
  fst (fetch_subway_data (get_api_key secrets) resp) = [error_api_key_missing]
  <-> exists d, secrets = Some d /\ lookup d k_API_KEY = Some [].
Proof.
  split.
  - intros H.
    destruct (get_api_key secrets) as [|c key] eqn:Ek.
    + unfold get_api_key in Ek. destruct secrets as [d|]; [|discriminate Ek].
      exists d. split; [reflexivity|].
      destruct (lookup d k_API_KEY) as [v|]; [now subst v|discriminate Ek].
    + exfalso. unfold fetch_subway_data in H. cbn [is_empty] in H.
      destruct resp as [e|data]; [discriminate H|].
      destruct (classify_response data) as [[calls res]|e] eqn:Ec;
        [|discriminate H].
      exact (classify_calls_not_key_missing _ Ec H).
  - intros (d & -> & Hl). unfold get_api_key. rewrite Hl. reflexivity.
Qed.

Lemma always_safe_range b :
  always_safe b = true ->
  ((65 <= b <= 90) \/ (97 <= b <= 122) \/ (48 <= b <= 57)
   \/ b = 95 \/ b = 46 \/ b = 45 \/ b = 126)%N.
Proof.
  unfold always_safe.
  rewrite !orb_true_iff, !andb_true_iff, !N.leb_le, !N.eqb_eq. tauto.
Qed.

Lemma range_always_safe b :
  ((65 <= b <= 90) \/ (48 <= b <= 57))%N -> always_safe b = true.
Proof.
  unfold always_safe.
  rewrite !orb_true_iff, !andb_true_iff, !N.leb_le, !N.eqb_eq. tauto.
Qed.

Lemma hex_digit_safe n : (n < 16)%N -> always_safe (hex_digit n) = true.
Proof.
  intros H. apply range_always_safe. unfold hex_digit.
  destruct (n <? 10)%N eqn:E.
  - apply N.ltb_lt in E. lia.
  - apply N.ltb_ge in E. lia.
Qed.

Lemma quote_byte_chars b :
  (b < 256)%N ->
  Forall (fun c => always_safe c = true \/ c = 37%N) (quote_byte b).
Proof.
  intros H. unfold quote_byte. destruct (always_safe b) eqn:E.
  - constructor; [now left|constructor].
  - constructor; [now right|].
    constructor.
    { left. apply hex_digit_safe. apply N.Div0.div_lt_upper_bound. lia. }
    constructor; [|constructor].
    left. apply hex_digit_safe. apply N.mod_upper_bound. lia.
Qed.

Lemma utf8_encode_bytes c bs :
  utf8_encode c = Some bs -> Forall (fun b => b < 256)%N bs.
Proof.
  unfold utf8_encode.
  destruct (c <? 128)%N eqn:E1.
  { intros H. assert (E : [c] = bs) by congruence. subst bs.
    apply N.ltb_lt in E1. constructor; [lia|constructor]. }
  destruct (c <? 2048)%N eqn:E2.
  { intros H.
    assert (E : [192 + c / 64; 128 + c mod 64]%N = bs) by congruence.
    subst bs. apply N.ltb_lt in E2.
    assert (c / 64 < 32)%N by (apply N.Div0.div_lt_upper_bound; lia).
    pose proof (N.mod_upper_bound c 64 ltac:(lia)).
    constructor; [lia|]. constructor; [lia|constructor]. }
  destruct ((55296 <=? c) && (c <=? 57343))%N; [discriminate|].
  destruct (c <? 65536)%N eqn:E3.
  { intros H.
    assert (E : [224 + c / 4096; 128 + (c / 64) mod 64; 128 + c mod 64]%N
                = bs) by congruence.
    subst bs. apply N.ltb_lt in E3.
    assert (c / 4096 < 16)%N by (apply N.Div0.div_lt_upper_bound; lia).
    pose proof (N.mod_upper_bound (c / 64) 64 ltac:(lia)).
    pose proof (N.mod_upper_bound c 64 ltac:(lia)).
    constructor; [lia|]. constructor; [lia|].
    constructor; [lia|constructor]. }
  destruct (c <? 1114112)%N eqn:E4; [|discriminate].
  intros H.
  assert (E : [240 + c / 262144; 128 + (c / 4096) mod 64;
               128 + (c / 64) mod 64; 128 + c mod 64]%N = bs) by congruence.
  subst bs. apply N.ltb_lt in E4.
  assert (c / 262144 < 5)%N by (apply N.Div0.div_lt_upper_bound; lia).
  pose proof (N.mod_upper_bound (c / 4096) 64 ltac:(lia)).
  pose proof (N.mod_upper_bound (c / 64) 64 ltac:(lia)).
  pose proof (N.mod_upper_bound c 64 ltac:(lia)).
  constructor; [lia|]. constructor; [lia|].
  constructor; [lia|]. constructor; [lia|constructor].
Qed.

Lemma quote_chars s :
  forall enc, quote s = Some enc ->
  Forall (fun c => always_safe c = true \/ c = 37%N) enc.
Proof.
  induction s as [|c s IH]; intros enc H.
  - cbn in H. injection H as <-. constructor.
  - cbn [quote] in H.
    destruct (utf8_encode c) as [bs|] eqn:Eb; [|discriminate H].
    destruct (quote s) as [r|]; [|discriminate H].
    injection H as <-. apply Forall_app. split; [|now apply IH].
    apply utf8_encode_bytes in Eb. clear IH.
    induction Eb as [|b bs Hb _ IHb]; [constructor|].
    cbn [flat_map]. apply Forall_app. split; [|exact IHb].
    now apply quote_byte_chars.
Qed.

(** X28.  The requested URL is the fixed prefix, the key, the fixed path and
    the encoded station name, and the encoded name is made of letters,
    digits, [_.-~] and [%] only: no station name can add a path segment, a
    query or a fragment to the URL. *)
Theorem request_url_shape (API_KEY station_name url : pystr) :
  request_url API_KEY station_name = Some url ->
  exists encoded_station,
    url = url_prefix ++ API_KEY ++ url_path ++ encoded_station
    /\ Forall (fun c => always_safe c = true \/ c = 37%N) encoded_station
    /\ ~ In 47%N encoded_station /\ ~ In 63%N encoded_station
    /\ ~ In 35%N encoded_station.
Proof.
  unfold request_url.
  destruct (quote station_name) as [enc|] eqn:E; [|discriminate].
  intros H. injection H as <-. exists enc. split; [reflexivity|].
  pose proof (quote_chars _ E) as HF. split; [exact HF|].
  rewrite Forall_forall in HF.
  repeat split; intros Hin; destruct (HF _ Hin) as [F|F]; discriminate F.
Qed.

(** X29.  A station name made of letters, digits and [_.-~] is sent as it
    is. *)
Theorem quote_safe_unchanged (station_name : pystr) :
  Forall (fun c => always_safe c = true) station_name ->
  quote station_name = Some station_name.
Proof.
  induction 1 as [|c s Hc _ IH]; [reflexivity|].
  cbn [quote]. rewrite IH.
  assert (Hlt : (c <? 128)%N = true).
  { apply N.ltb_lt. apply always_safe_range in Hc. lia. }
  unfold utf8_encode. rewrite Hlt. cbn [flat_map app].
  unfold quote_byte. rewrite Hc. reflexivity.
Qed.

(** X30.  Every Hangul syllable of a station name is sent as nine
    characters, three escaped bytes; encoding never fails on a name written
    in Hangul. *)
Theorem quote_hangul_length (station_name : pystr) :
  Forall (fun c => is_hangul c = true) station_name ->
  exists encoded_station,
    quote station_name = Some encoded_station
    /\ List.length encoded_station = (9 * List.length station_name)%nat.
Proof.
  induction 1 as [|c s Hc _ (enc & IH & Hlen)]; [now exists []|].
  unfold is_hangul in Hc. rewrite andb_true_iff, !N.leb_le in Hc.
  cbn [quote]. rewrite IH. unfold utf8_encode.
  replace (c <? 128)%N with false by (symmetry; apply N.ltb_ge; lia).
  replace (c <? 2048)%N with false by (symmetry; apply N.ltb_ge; lia).
  replace ((55296 <=? c) && (c <=? 57343))%N with false.
  2:{ symmetry. apply andb_false_iff. left. apply N.leb_gt. lia. }
  replace (c <? 65536)%N with true by (symmetry; apply N.ltb_lt; lia).
  assert (Hhigh : forall x, always_safe (128 + x) = false).
  { intros x. destruct (always_safe (128 + x)) eqn:E; [|reflexivity].
    apply always_safe_range in E. lia. }
  assert (H1 : always_safe (224 + c / 4096) = false).
  { replace (224 + c / 4096)%N with (128 + (96 + c / 4096))%N
      by (generalize (c / 4096)%N; intros; lia).
    apply Hhigh. }
  pose proof (Hhigh ((c / 64) mod 64)%N) as H2.
  pose proof (Hhigh (c mod 64)%N) as H3.
  eexists. split; [reflexivity|].
  rewrite length_app, Hlen. cbn [flat_map]. unfold quote_byte.
  rewrite H1, H2, H3. rewrite !length_app.
  change (List.length (@nil codepoint)) with 0%nat.
  repeat match goal with
         | |- context [List.length [?a; ?b; ?c]] =>
           change (List.length [a; b; c]) with 3%nat
         end.
  change (List.length (c :: s)) with (S (List.length s)). lia.
Qed.

End RequestFacts.

Lemma request_url_shape_witness :
  exists encoded_station,
    utf8 "http://swopenAPI.seoul.go.kr/api/subway/KEY/json/realtimeStationArrival/0/10/%EC%A7%80%EC%B6%95"
    = Request.url_prefix ++ utf8 "KEY" ++ Request.url_path ++ encoded_station
    /\ ~ In 47%N encoded_station.
Proof.
  destruct (@request_url_shape (utf8 "KEY") (utf8 "지축") _ eq_refl)
    as (enc & Hu & _ & Hslash & _).
  exists enc. split; assumption.
Defined.

Lemma quote_safe_unchanged_witness :
  Request.quote (utf8 "Seoul-Station_1") = Some (utf8 "Seoul-Station_1").
Proof.
  apply quote_safe_unchanged. repeat constructor.
Defined.

Lemma quote_hangul_length_witness :
  exists encoded_station,
    Request.quote (utf8 "홍대입구") = Some encoded_station
    /\ List.length encoded_station = 36%nat.
Proof.
  apply (@quote_hangul_length (utf8 "홍대입구")). repeat constructor.
Defined.
